(** * On-chain agent registry: registrar and mock JSON-RPC endpoint

    A shallow embedding of
      - [src/google/adk/agents/onchain_registry/registrar.py]
        (class [ERC8004Registrar]: [__init__], [load_or_create_wallet],
        [_get_default_abi], [register]), and
      - [src/google/adk/agents/onchain_registry/mock_rpc.py]
        (the handler [handle_rpc] and its constants),
    followed by the properties of the specification that concern them.

    Python values are an inductive type, dictionaries are finite maps,
    exceptions are an explicit result, and every method threads the
    instance and the outside world (environment variables, file system,
    entropy, log, calls made) through a small state-and-exception monad. *)

From Stdlib Require Import ZArith Lia Bool List String Ascii HexString DecimalString.
From Stdlib.Strings Require Import Byte.
From Stdlib Require Import Floats.SpecFloat.
From stdpp Require Import base option gmap strings list.

Set Warnings "-register-all".

Local Open Scope string_scope.
Local Open Scope list_scope.
Local Open Scope Z_scope.

(* ===================================================================== *)
(** ** Python preliminaries *)
(* ===================================================================== *)

(** The classes of [Exception] the two modules can meet.  [BaseException]s
    that are not [Exception]s (keyboard interrupt, interpreter exit) are
    outside the model: no [except Exception] handler sees them. *)
Inductive exn_class :=
  | ContractLogicError
  | KeyError
  | TypeError
  | AttributeError
  | ValueError
  | OverflowError
  | IndexError
  | OSError
  | OtherError.

(** An exception: its class and the text [str(e)] yields. *)
Record exn := Exn { exn_cls : exn_class; exn_msg : string }.

(** The result of evaluating a Python expression: a value or a raised
    exception. *)
Inductive outcome (A : Type) :=
  | Ret (a : A)
  | Raise (e : exn).
Arguments Ret {A} a.
Arguments Raise {A} e.

(** Python values, as [json.loads] and the web3 client produce them. *)
Inductive pyval :=
  | PNone
  | PBool (b : bool)
  | PInt (n : Z)
  | PFloat (f : spec_float)
  | PStr (s : string)
  | PBytes (b : list byte)
  | PList (l : list pyval)
  | PDict (d : gmap string pyval).

(** [s * n] on strings. *)
Fixpoint str_mul (s : string) (n : nat) : string :=
  match n with
  | O => ""
  | S n' => s +:+ str_mul s n'
  end.

(** [bool(v)]: Python truthiness. *)
Definition truthy (v : pyval) : bool :=
  match v with
  | PNone => false
  | PBool b => b
  | PInt n => negb (Z.eqb n 0)
  | PFloat f => match f with S754_zero _ => false | _ => true end
  | PStr s => negb (String.eqb s "")
  | PBytes b => match b with [] => false | _ => true end
  | PList l => match l with [] => false | _ => true end
  | PDict d => negb (bool_decide (d = ∅))
  end.

(** [bool(s)] for an [Optional[str]] such as [os.getenv] returns. *)
Definition truthy_str (o : option string) : bool :=
  match o with
  | Some s => negb (String.eqb s "")
  | None => false
  end.

(** ** Binary64 arithmetic

    Python's [float] is IEEE 754 binary64; the operations are those of the
    Standard Library's executable specification at precision 53. *)
Definition prec : Z := 53.
Definition emax : Z := 1024.

(** [float(n)] for an [int]: the nearest double, ties to even;
    [OverflowError] beyond the finite range. *)
Definition float_of_int (n : Z) : outcome spec_float :=
  match binary_normalize prec emax n 0 false with
  | S754_infinity _ =>
      Raise (Exn OverflowError "int too large to convert to float")
  | f => Ret f
  end.

(** [int(x)] for a [float]: truncation toward zero. *)
Definition int_of_float (x : spec_float) : outcome Z :=
  match x with
  | S754_zero _ => Ret 0
  | S754_finite s m e =>
      let a := if 0 <=? e then Z.pos m * 2 ^ e else Z.pos m / 2 ^ (- e) in
      Ret (if s then - a else a)
  | S754_infinity _ =>
      Raise (Exn OverflowError "cannot convert float infinity to integer")
  | S754_nan =>
      Raise (Exn ValueError "cannot convert float NaN to integer")
  end.

(** The literal [1.2]: the double [0x1.3333333333333p+0]. *)
Definition float_1_2 : spec_float := S754_finite false 5404319552844595 (-52).

(** [n * x] for an [int] [n] and a [float] [x]: [n] is converted first. *)
Definition int_mul_float (n : Z) (x : spec_float) : outcome spec_float :=
  match float_of_int n with
  | Ret f => Ret (SFmul prec emax f x)
  | Raise e => Raise e
  end.

(** [int(gas_estimate * 1.2)], the expression of [register]. *)
Definition gas_with_buffer (gas_estimate : Z) : outcome Z :=
  match int_mul_float gas_estimate float_1_2 with
  | Ret p => int_of_float p
  | Raise e => Raise e
  end.

(** Whether a [float] and an [int] denote the same number. *)
Definition float_eq_int (f : spec_float) (n : Z) : bool :=
  match f with
  | S754_zero _ => n =? 0
  | S754_finite s m e =>
      let mz := if s then Z.neg m else Z.pos m in
      if 0 <=? e then mz * 2 ^ e =? n else mz =? n * 2 ^ (- e)
  | _ => false
  end.

(** [v == n] for an [int] literal [n]. *)
Definition py_eq_int (v : pyval) (n : Z) : bool :=
  match v with
  | PInt m => m =? n
  | PBool b => Z.b2z b =? n
  | PFloat f => float_eq_int f n
  | _ => false
  end.

(** [v == s] for a [str] [s]. *)
Definition py_eq_str (v : pyval) (s : string) : bool :=
  match v with
  | PStr t => String.eqb t s
  | _ => false
  end.

(** [type(v).__name__], as exception messages print it. *)
Definition type_name (v : pyval) : string :=
  match v with
  | PNone => "NoneType"
  | PBool _ => "bool"
  | PInt _ => "int"
  | PFloat _ => "float"
  | PStr _ => "str"
  | PBytes _ => "bytes"
  | PList _ => "list"
  | PDict _ => "dict"
  end.

(** [d[k]] on a dictionary with string keys. *)
Definition dict_getitem (d : gmap string pyval) (k : string) : outcome pyval :=
  match d !! k with
  | Some v => Ret v
  | None => Raise (Exn KeyError ("'" +:+ k +:+ "'"))
  end.

(** [v.get(k, dflt)]: only dictionaries have the method. *)
Definition py_get (v : pyval) (k : string) (dflt : pyval) : outcome pyval :=
  match v with
  | PDict d => Ret (default dflt (d !! k))
  | _ => Raise (Exn AttributeError
                  ("'" +:+ type_name v +:+ "' object has no attribute 'get'"))
  end.

(** [v[0]].  A decoded JSON object has string keys only, so the integer
    key [0] is never present in a dictionary. *)
Definition py_getitem0 (v : pyval) : outcome pyval :=
  match v with
  | PList l =>
      match l with
      | x :: _ => Ret x
      | [] => Raise (Exn IndexError "list index out of range")
      end
  | PStr s =>
      match s with
      | String c _ => Ret (PStr (String c ""))
      | EmptyString => Raise (Exn IndexError "string index out of range")
      end
  | PBytes b =>
      match b with
      | x :: _ => Ret (PInt (Z.of_N (Byte.to_N x)))
      | [] => Raise (Exn IndexError "index out of range")
      end
  | PDict _ => Raise (Exn KeyError "0")
  | _ => Raise (Exn TypeError
                  ("'" +:+ type_name v +:+ "' object is not subscriptable"))
  end.

(** ** Bytes as hexadecimal text *)

Definition hex_digit (n : N) : ascii :=
  match n with
  | 0 => "0" | 1 => "1" | 2 => "2" | 3 => "3" | 4 => "4" | 5 => "5"
  | 6 => "6" | 7 => "7" | 8 => "8" | 9 => "9" | 10 => "a" | 11 => "b"
  | 12 => "c" | 13 => "d" | 14 => "e" | _ => "f"
  end%N%char.

Definition hex_of_byte (b : byte) : string :=
  String (hex_digit (Byte.to_N b / 16)) (String (hex_digit (Byte.to_N b mod 16)) "").

Fixpoint hexlify (b : list byte) : string :=
  match b with
  | [] => ""
  | x :: b' => hex_of_byte x +:+ hexlify b'
  end.

(** [Web3.to_hex], a function of the web3 library, on a byte string:
    ["0x"] and two lower-case hexadecimal digits per byte. *)
Definition to_hex (b : list byte) : string := "0x" +:+ hexlify b.

(** ** State and exceptions

    A computation reads and updates a state and either returns or raises;
    what it did to the state before raising stays done. *)
Definition M (S A : Type) : Type := S -> outcome A * S.

#[global] Instance M_ret {S} : MRet (M S) := fun A a σ => (Ret a, σ).

#[global] Instance M_bind {S} : MBind (M S) := fun A B k m σ =>
  match m σ with
  | (Ret a, σ') => k a σ'
  | (Raise e, σ') => (Raise e, σ')
  end.

(** An expression that touches no state. *)
Definition lift {S A} (o : outcome A) : M S A := fun σ => (o, σ).

(** [try: m  except Exception as e: h e]. *)
Definition try_except {S A} (m : M S A) (h : exn -> M S A) : M S A := fun σ =>
  match m σ with
  | (Ret a, σ') => (Ret a, σ')
  | (Raise e, σ') => h e σ'
  end.

Definition gets {S A} (f : S -> A) : M S A := fun σ => (Ret (f σ), σ).
Definition modify {S} (f : S -> S) : M S unit := fun σ => (Ret tt, f σ).

(* ===================================================================== *)
(** ** registrar.py *)
(* ===================================================================== *)

(** A signing identity as [eth_account] hands it out: the checksummed
    address and the private key. *)
Record LocalAccount := { address : string; key : list byte }.

(** What [Account.from_key] accepts: hexadecimal text or raw bytes. *)
Inductive key_material :=
  | KeyStr (s : string)
  | KeyBytes (b : list byte).

(** The result of [sign_transaction]. *)
Record SignedTransaction := { raw_transaction : list byte }.

(** The chain client [self._w3], an object of the web3 library.  Each
    method is the answer the node (or the library) gives to that call: a
    value or an exception; so for the connection probe [is_connected],
    which answers [True] or [False] or, like any call, raises. *)
Record Web3 := {
  is_connected : outcome bool;
  eth_contract : string -> pyval -> outcome unit;
  functions_register : string -> string -> outcome unit;
  get_transaction_count : string -> outcome Z;
  build_transaction :
    string -> string -> gmap string pyval -> outcome (gmap string pyval);
  estimate_gas : gmap string pyval -> outcome Z;
  sign_transaction : gmap string pyval -> list byte -> outcome SignedTransaction;
  send_raw_transaction : list byte -> outcome (list byte);
  wait_for_transaction_receipt : list byte -> outcome (gmap string pyval);
}.

(** The functions of [eth_account], [web3] and [json] the module calls;
    [HTTPProvider] stands for [Web3(Web3.HTTPProvider(url))], the making
    of a client for a URL. *)
Class Libraries := {
  Account_from_key : key_material -> outcome LocalAccount;
  Account_decrypt : string -> string -> outcome (list byte);
  Account_encrypt : list byte -> string -> outcome pyval;
  json_dumps : pyval -> string;
  to_checksum_address : string -> outcome string;
  HTTPProvider : string -> outcome Web3;
}.

(** The calls the methods make on the chain client and on the file
    system, with their arguments. *)
Inductive call :=
  | CallIsConnected
  | CallContract (addr : string)
  | CallRegisterFn (url : string)
  | CallGetTransactionCount (addr : string)
  | CallBuildTransaction (params : gmap string pyval)
  | CallEstimateGas (tx : gmap string pyval)
  | CallSignTransaction (tx : gmap string pyval) (k : list byte)
  | CallSendRawTransaction (raw : list byte)
  | CallWaitForTransactionReceipt (tx_hash : list byte)
  | CallPathExists (path : string)
  | CallOpenRead (path : string)
  | CallOpenWrite (path : string) (content : string).

(** Calls that reach the chain node. *)
Definition is_network (c : call) : bool :=
  match c with
  | CallIsConnected | CallGetTransactionCount _ | CallBuildTransaction _
  | CallEstimateGas _ | CallSendRawTransaction _
  | CallWaitForTransactionReceipt _ => true
  | _ => false
  end.

Inductive level := INFO | WARNING | ERROR.

(** What is at a path: a file, a directory, or nothing the operating
    system lets the process examine (a directory on the way that cannot be
    searched, a name that is too long), with the error text it then
    gives. *)
Inductive fsnode :=
  | RegularFile (content : string)
  | Directory
  | Refused (strerror : string).

(** The world outside the instance: [os.environ], the file system (with
    the paths the operating system refuses to open), the accounts the
    next calls of [Account.create] will draw, the log and the calls made
    so far, oldest first. *)
Record world := {
  environ : gmap string string;
  files : gmap string fsnode;
  denied : gset string;
  entropy : list LocalAccount;
  log : list (level * string);
  calls : list call;
}.

(** The instance attributes of [ERC8004Registrar]. *)
Record ERC8004Registrar := {
  _w3 : option Web3;
  _account : option LocalAccount;
  _registry_address : option string;
}.

Record state := { self : ERC8004Registrar; outside : world }.

Definition DEFAULT_KEYSTORE_PATH : string := "agent_keystore.json".

Definition with_world (f : world -> world) (σ : state) : state :=
  {| self := self σ; outside := f (outside σ) |}.

Definition logger (l : level) (msg : string) : M state unit :=
  modify (with_world (fun w =>
    {| environ := environ w; files := files w; denied := denied w;
       entropy := entropy w; log := log w ++ [(l, msg)]; calls := calls w |})).

Definition record_call (c : call) : M state unit :=
  modify (with_world (fun w =>
    {| environ := environ w; files := files w; denied := denied w;
       entropy := entropy w; log := log w; calls := calls w ++ [c] |})).

(** [os.getenv(name)] and [os.getenv(name, dflt)]. *)
Definition getenv (name : string) : M state (option string) :=
  gets (fun σ => environ (outside σ) !! name).

Definition getenv_default (name dflt : string) : M state string :=
  gets (fun σ => default dflt (environ (outside σ) !! name)).

(** [self._account = a]. *)
Definition set_account (a : LocalAccount) : M state unit :=
  modify (fun σ =>
    {| self := {| _w3 := _w3 (self σ); _account := Some a;
                  _registry_address := _registry_address (self σ) |};
       outside := outside σ |}).

(** [Path(s)]: the empty path is the current directory. *)
Definition Path (s : string) : string := if String.eqb s "" then "." else s.

(** The [OSError] of the operating system's refusal at a path. *)
Definition os_error (strerror path : string) : exn :=
  Exn OSError (strerror +:+ ": '" +:+ path +:+ "'").

(** What [stat] finds at a path: something, nothing, or the operating
    system's refusal, which it raises. *)
Definition fs_exists (w : world) (path : string) : outcome bool :=
  match files w !! path with
  | Some (Refused strerror) => Raise (os_error strerror path)
  | Some _ => Ret true
  | None => Ret false
  end.

(** [path.exists()]: an absent path is [False]; the operating system's
    refusal to examine the path is raised to the caller. *)
Definition path_exists (path : string) : M state bool :=
  record_call (CallPathExists path);;
  w ← gets outside;
  lift (fs_exists w path).

(** [open(path, "r").read()]. *)
Definition open_read (path : string) : M state string :=
  record_call (CallOpenRead path);;
  w ← gets outside;
  if bool_decide (path ∈ denied w) then
    lift (Raise (Exn OSError ("[Errno 13] Permission denied: '" +:+ path +:+ "'")))
  else
    match files w !! path with
    | Some (RegularFile content) => mret content
    | Some Directory =>
        lift (Raise (Exn OSError ("[Errno 21] Is a directory: '" +:+ path +:+ "'")))
    | Some (Refused strerror) => lift (Raise (os_error strerror path))
    | None =>
        lift (Raise (Exn OSError
                       ("[Errno 2] No such file or directory: '" +:+ path +:+ "'")))
    end.

(** [with open(path, "w") as f: f.write(content)]. *)
Definition open_write (path content : string) : M state unit :=
  record_call (CallOpenWrite path content);;
  w ← gets outside;
  if bool_decide (path ∈ denied w) then
    lift (Raise (Exn OSError ("[Errno 13] Permission denied: '" +:+ path +:+ "'")))
  else
    match files w !! path with
    | Some Directory =>
        lift (Raise (Exn OSError ("[Errno 21] Is a directory: '" +:+ path +:+ "'")))
    | Some (Refused strerror) => lift (Raise (os_error strerror path))
    | _ =>
        modify (with_world (fun w =>
          {| environ := environ w; files := <[path := RegularFile content]> (files w);
             denied := denied w; entropy := entropy w; log := log w;
             calls := calls w |}))
    end.

(** [Account.create()]: the next account the entropy source yields. *)
Definition Account_create : M state LocalAccount :=
  w ← gets outside;
  match entropy w with
  | a :: rest =>
      modify (with_world (fun w =>
        {| environ := environ w; files := files w; denied := denied w;
           entropy := rest; log := log w; calls := calls w |}));;
      mret a
  | [] => lift (Raise (Exn OtherError "no entropy available"))
  end.

Section Registrar.
Context `{!Libraries}.


(** [ERC8004Registrar.load_or_create_wallet]. *)
Definition load_or_create_wallet : M state (option string) :=
  password ← getenv "AGENT_WALLET_PASSWORD";
  if negb (truthy_str password) then
    logger WARNING "AGENT_WALLET_PASSWORD not set. Cannot manage wallet.";;
    mret None
  else
    let password := default "" password in
    (* Priority 1: private key from the environment *)
    private_key ← getenv "AGENT_PRIVATE_KEY";
    if truthy_str private_key then
      try_except
        (a ← lift (Account_from_key (KeyStr (default "" private_key)));
         set_account a;;
         logger INFO ("Loaded wallet from private key: " +:+ address a);;
         mret (Some (address a)))
        (fun e =>
           logger ERROR ("Failed to load wallet from private key: " +:+ exn_msg e);;
           mret None)
    else
      (* Priority 2: keystore file *)
      keystore_path ← getenv_default "AGENT_KEYSTORE_PATH" DEFAULT_KEYSTORE_PATH;
      let keystore_file := Path keystore_path in
      ex ← path_exists keystore_file;
      if ex : bool then
        try_except
          (encrypted_key ← open_read keystore_file;
           k ← lift (Account_decrypt encrypted_key password);
           a ← lift (Account_from_key (KeyBytes k));
           set_account a;;
           logger INFO ("Loaded wallet from keystore: " +:+ address a);;
           mret (Some (address a)))
          (fun e =>
             logger ERROR ("Failed to decrypt keystore at " +:+ keystore_path
                           +:+ ": " +:+ exn_msg e);;
             mret None)
      else
        (* Priority 3: create a new wallet *)
        try_except
          (logger INFO "No existing wallet found. Creating new wallet...";;
           a ← Account_create;
           set_account a;;
           encrypted_key ← lift (Account_encrypt (key a) password);
           open_write keystore_file (json_dumps encrypted_key);;
           logger INFO ("Created new wallet: " +:+ address a);;
           logger INFO ("Keystore saved to: " +:+ keystore_path);;
           mret (Some (address a)))
          (fun e =>
             logger ERROR ("Failed to create new wallet: " +:+ exn_msg e);;
             mret None).

(** [ERC8004Registrar._get_default_abi]. *)
Definition _get_default_abi : pyval :=
  PList [PDict (list_to_map
    [("inputs", PList [PDict (list_to_map
        [("internalType", PStr "string"); ("name", PStr "url");
         ("type", PStr "string")])]);
     ("name", PStr "register");
     ("outputs", PList []);
     ("stateMutability", PStr "nonpayable");
     ("type", PStr "function")])].

(** [ERC8004Registrar.register]. *)
Definition register (agent_url : string) (mock : bool) : M state (option string) :=
  if mock then
    logger INFO ("[MOCK] Registering agent URL: " +:+ agent_url);;
    account ← gets (fun σ => _account (self σ));
    logger INFO ("[MOCK] Wallet Address: " +:+
                 match account with Some a => address a | None => "N/A" end);;
    mret (Some ("0x" +:+ str_mul "0" 64))
  else
    w3 ← gets (fun σ => _w3 (self σ));
    match w3 with
    | None =>
        logger ERROR "Cannot register: Web3 not connected.";;
        mret None
    | Some w3 =>
        record_call CallIsConnected;;
        up ← lift (is_connected w3);
        if negb up then
          logger ERROR "Cannot register: Web3 not connected.";;
          mret None
        else
          account ← gets (fun σ => _account (self σ));
          match account with
          | None =>
              logger ERROR "Cannot register: No wallet loaded.";;
              mret None
          | Some account =>
              registry ← gets (fun σ => _registry_address (self σ));
              if negb (truthy_str registry) then
                logger ERROR "Cannot register: AGENT_REGISTRY_ADDRESS not set.";;
                mret None
              else
                try_except
                  ((* checksum address *)
                   registry_address ←
                     lift (to_checksum_address (default "" registry));
                   record_call (CallContract registry_address);;
                   lift (eth_contract w3 registry_address _get_default_abi);;
                   (* build transaction *)
                   record_call (CallRegisterFn agent_url);;
                   lift (functions_register w3 registry_address agent_url);;
                   record_call (CallGetTransactionCount (address account));;
                   nonce ← lift (get_transaction_count w3 (address account));
                   let params : gmap string pyval :=
                     <["nonce" := PInt nonce]>
                       (<["from" := PStr (address account)]> ∅) in
                   record_call (CallBuildTransaction params);;
                   tx ← lift (build_transaction w3 registry_address agent_url params);
                   (* estimate gas, with a fallback *)
                   tx ← try_except
                          (record_call (CallEstimateGas tx);;
                           gas_estimate ← lift (estimate_gas w3 tx);
                           gas ← lift (gas_with_buffer gas_estimate);
                           mret (<["gas" := PInt gas]> tx))
                          (fun e =>
                             logger WARNING
                               ("Gas estimation failed (might be expected for gasless): "
                                +:+ exn_msg e +:+ ". Proceeding with default.");;
                             mret tx);
                   (* sign transaction *)
                   record_call (CallSignTransaction tx (key account));;
                   signed_tx ← lift (sign_transaction w3 tx (key account));
                   (* send transaction *)
                   logger INFO ("Sending registration transaction for "
                                +:+ agent_url +:+ "...");;
                   record_call (CallSendRawTransaction (raw_transaction signed_tx));;
                   tx_hash ← lift (send_raw_transaction w3 (raw_transaction signed_tx));
                   (* wait for receipt *)
                   record_call (CallWaitForTransactionReceipt tx_hash);;
                   receipt ← lift (wait_for_transaction_receipt w3 tx_hash);
                   status ← lift (dict_getitem receipt "status");
                   if py_eq_int status 1 then
                     logger INFO
                       ("Successfully registered agent URL on-chain. Tx: "
                        +:+ to_hex tx_hash);;
                     mret (Some (to_hex tx_hash))
                   else
                     logger ERROR
                       ("Registration transaction failed. Tx: " +:+ to_hex tx_hash);;
                     mret None)
                  (fun e =>
                     match exn_cls e with
                     | ContractLogicError =>
                         logger ERROR
                           ("Contract logic error during registration: " +:+ exn_msg e);;
                         mret None
                     | _ =>
                         logger ERROR
                           ("Unexpected error during registration: " +:+ exn_msg e);;
                         mret None
                     end)
          end
    end.
End Registrar.

(* ===================================================================== *)
(** ** mock_rpc.py *)
(* ===================================================================== *)

Definition MOCK_CHAIN_ID : Z := 1337.
Definition MOCK_TX_HASH : string := "0x" +:+ str_mul "a" 64.
Definition MOCK_BLOCK_HASH : string := "0x" +:+ str_mul "b" 64.

(** [hex(n)] and [str(n)] for an [int]. *)
Definition py_hex (n : Z) : string := HexString.of_Z n.
Definition py_str_int (n : Z) : string := NilZero.string_of_int (Z.to_int n).

(** What the handler logs: the request, an unhandled method, an error. *)
Inductive rpc_log :=
  | LogRequest (method params : pyval)
  | LogUnhandled (method : pyval)
  | LogError (e : exn).

Definition rpc_logger (r : rpc_log) : M (list rpc_log) unit :=
  modify (fun l : list rpc_log => (l ++ [r])%list).

(** A [JSONResponse]: status code and JSON content. *)
Record response := { status_code : Z; content : pyval }.

(** What the route function hands to the framework: a value, which the
    framework serialises and sends under its default status after the
    function has returned, or a response the function built itself. *)
Inductive returned :=
  | Plain (value : pyval)
  | Built (r : response).

(** The block [eth_getBlockByNumber] answers with. *)
Definition mock_block : gmap string pyval :=
  list_to_map
    [("number", PStr "0x1");
     ("hash", PStr MOCK_BLOCK_HASH);
     ("parentHash", PStr ("0x" +:+ str_mul "0" 64));
     ("nonce", PStr "0x0000000000000000");
     ("sha3Uncles", PStr ("0x" +:+ str_mul "0" 64));
     ("logsBloom", PStr ("0x" +:+ str_mul "0" 512));
     ("transactionsRoot", PStr ("0x" +:+ str_mul "0" 64));
     ("stateRoot", PStr ("0x" +:+ str_mul "0" 64));
     ("receiptsRoot", PStr ("0x" +:+ str_mul "0" 64));
     ("miner", PStr ("0x" +:+ str_mul "0" 40));
     ("difficulty", PStr "0x0");
     ("totalDifficulty", PStr "0x0");
     ("extraData", PStr "0x");
     ("size", PStr "0x3e8");
     ("gasLimit", PStr "0x1c9c380");
     ("gasUsed", PStr "0x0");
     ("timestamp", PStr "0x64fc9d77");
     ("transactions", PList []);
     ("uncles", PList []);
     ("baseFeePerGas", PStr "0x3b9aca00")].

(** The receipt [eth_getTransactionReceipt] answers with for the mock
    transaction hash. *)
Definition mock_receipt : gmap string pyval :=
  list_to_map
    [("transactionHash", PStr MOCK_TX_HASH);
     ("transactionIndex", PStr "0x1");
     ("blockHash", PStr MOCK_BLOCK_HASH);
     ("blockNumber", PStr "0x1");
     ("from", PStr ("0x" +:+ str_mul "1" 40));
     ("to", PStr ("0x" +:+ str_mul "2" 40));
     ("cumulativeGasUsed", PStr "0x5208");
     ("gasUsed", PStr "0x5208");
     ("contractAddress", PNone);
     ("logs", PList []);
     ("logsBloom", PStr "0x0");
     ("status", PStr "0x1")].

(** The envelope of a served request. *)
Definition rpc_envelope (req_id result : pyval) : pyval :=
  PDict (list_to_map
    [("jsonrpc", PStr "2.0"); ("id", req_id); ("result", result)]).

(** The envelope of a failed request. *)
Definition rpc_error_envelope (e : exn) : pyval :=
  PDict (list_to_map
    [("jsonrpc", PStr "2.0");
     ("id", PNone);
     ("error", PDict (list_to_map
        [("code", PInt (-32000)); ("message", PStr (exn_msg e))]))]).

(** [handle_rpc].  The argument is what [await request.json()] yields:
    the decoded body, or the exception a body that is not JSON raises. *)
Definition handle_rpc (request_json : outcome pyval) : M (list rpc_log) returned :=
  try_except
    (data ← lift request_json;
     method ← lift (py_get data "method" PNone);
     params ← lift (py_get data "params" (PList []));
     req_id ← lift (py_get data "id" PNone);
     rpc_logger (LogRequest method params);;
     result ←
       (if py_eq_str method "eth_chainId" then mret (PStr (py_hex MOCK_CHAIN_ID))
        else if py_eq_str method "net_version" then
          mret (PStr (py_str_int MOCK_CHAIN_ID))
        else if py_eq_str method "eth_getTransactionCount" then mret (PStr "0x0")
        else if py_eq_str method "eth_gasPrice" then mret (PStr "0x3b9aca00")
        else if py_eq_str method "eth_estimateGas" then mret (PStr "0x5208")
        else if py_eq_str method "eth_maxPriorityFeePerGas" then
          mret (PStr "0x3b9aca00")
        else if py_eq_str method "eth_getBlockByNumber" then
          mret (PDict mock_block)
        else if py_eq_str method "eth_sendRawTransaction" then
          mret (PStr MOCK_TX_HASH)
        else if py_eq_str method "eth_getTransactionReceipt" then
          (* params and params[0] == MOCK_TX_HASH *)
          is_mock_tx ←
            (if truthy params then
               first ← lift (py_getitem0 params);
               mret (py_eq_str first MOCK_TX_HASH)
             else mret false);
          if is_mock_tx : bool then mret (PDict mock_receipt) else mret PNone
        else
          rpc_logger (LogUnhandled method);;
          mret (PStr "0x0"));
     mret (Plain (rpc_envelope req_id result)))
    (fun e =>
       rpc_logger (LogError e);;
       mret (Built {| status_code := 500; content := rpc_error_envelope e |})).

(* ===================================================================== *)
(** ** Vocabulary of the specification *)
(* ===================================================================== *)

(** [not (not self._w3 or not self._w3.is_connected())]: the answer of
    the connection test, which is the probe's when there is a client. *)
Definition connected (r : ERC8004Registrar) : outcome bool :=
  match _w3 r with
  | Some w3 => is_connected w3
  | None => Ret false
  end.

(** The placeholder hash of a mock registration, written out. *)
Definition placeholder_hash : string :=
  "0x0000000000000000000000000000000000000000000000000000000000000000".

(** The value 1 as Python's [==] finds it: the integer 1, [True], or a
    float whose value is 1.  A string (["0x1"] too), [None], bytes, a list
    and an object never equal it. *)
Definition equals_one (v : pyval) : Prop :=
  match v with
  | PInt n => n = 1
  | PBool b => b = true
  | PFloat (S754_finite false m e) =>
      (0 <= e /\ Z.pos m * 2 ^ e = 1) \/ (e < 0 /\ Z.pos m = 2 ^ (- e))
  | _ => False
  end.

(** Canonical hexadecimal text, digit by digit: for each byte the digit
    of its high half, then the digit of its low half, out of
    [0123456789abcdef]. *)
Definition hex_alphabet : list ascii := list_ascii_of_string "0123456789abcdef".

Definition hex_pair (x : byte) : string :=
  let n := N.to_nat (Byte.to_N x) in
  String (nth (n / 16)%nat hex_alphabet "0"%char)
    (String (nth (n mod 16)%nat hex_alphabet "0"%char) "").

Fixpoint hex_text (b : list byte) : string :=
  match b with
  | [] => ""
  | x :: b' => hex_pair x +:+ hex_text b'
  end.

(** The handler returned a success envelope for the request [d] with the
    given result: an object handed to the framework as it is, with the
    protocol version, the request's identifier, the result, and no error
    member. *)
Definition serves (answer : outcome returned) (d : gmap string pyval)
    (result : pyval) : Prop :=
  exists body : gmap string pyval,
    answer = Ret (Plain (PDict body)) /\
    body !! "jsonrpc" = Some (PStr "2.0") /\
    body !! "id" = Some (default PNone (d !! "id")) /\
    body !! "result" = Some result /\
    body !! "error" = None.

(** A lower-case hexadecimal digit. *)
Definition is_hex_char (c : ascii) : bool :=
  let n := N_of_ascii c in
  ((48 <=? n) && (n <=? 57) || (97 <=? n) && (n <=? 102))%N.

(** Canonical hexadecimal form of [n] bytes: ["0x"], then [2 * n]
    lower-case hexadecimal digits. *)
Definition canonical_hex (n : nat) (s : string) : Prop :=
  exists digits : string,
    s = String "0" (String "x" digits) /\
    String.length digits = (2 * n)%nat /\
    forallb is_hex_char (list_ascii_of_string digits) = true.

Section Paths.
Context `{!Libraries}.

(** The parameters [register] hands to [build_transaction]. *)
Definition tx_params (account : LocalAccount) (nonce : Z) : gmap string pyval :=
  <["nonce" := PInt nonce]> (<["from" := PStr (address account)]> ∅).

(** The three preconditions of [register] hold and every call up to
    [build_transaction] returned: the transaction [tx] was built. *)
Record built (σ : state) (agent_url : string) (w3 : Web3)
    (account : LocalAccount) (registry_address : string) (nonce : Z)
    (tx : gmap string pyval) : Prop := {
  built_w3 : _w3 (self σ) = Some w3;
  built_connected : is_connected w3 = Ret true;
  built_account : _account (self σ) = Some account;
  built_registry :
    exists registry,
      _registry_address (self σ) = Some registry /\ registry <> "" /\
      to_checksum_address registry = Ret registry_address;
  built_contract : eth_contract w3 registry_address _get_default_abi = Ret tt;
  built_function : functions_register w3 registry_address agent_url = Ret tt;
  built_nonce : get_transaction_count w3 (address account) = Ret nonce;
  built_tx :
    build_transaction w3 registry_address agent_url (tx_params account nonce)
    = Ret tx;
}.

(** The calls [register] has made once the transaction is built. *)
Definition build_calls (agent_url : string) (account : LocalAccount)
    (registry_address : string) (nonce : Z) : list call :=
  [CallIsConnected; CallContract registry_address; CallRegisterFn agent_url;
   CallGetTransactionCount (address account);
   CallBuildTransaction (tx_params account nonce)].

(** What the gas estimation block makes of a built transaction. *)
Inductive gas_step (w3 : Web3) (tx : gmap string pyval) :
    gmap string pyval -> Prop :=
  | gas_buffered g gas :
      estimate_gas w3 tx = Ret g -> gas_with_buffer g = Ret gas ->
      gas_step w3 tx (<["gas" := PInt gas]> tx)
  | gas_estimate_failed e :
      estimate_gas w3 tx = Raise e -> gas_step w3 tx tx
  | gas_buffer_failed g e :
      estimate_gas w3 tx = Ret g -> gas_with_buffer g = Raise e ->
      gas_step w3 tx tx.

(** The transaction was signed and submitted, and a receipt observed. *)
Definition submitted (σ : state) (agent_url : string) (tx_hash : list byte)
    (receipt : gmap string pyval) : Prop :=
  exists w3 account registry_address nonce tx tx' signed_tx,
    built σ agent_url w3 account registry_address nonce tx /\
    gas_step w3 tx tx' /\
    sign_transaction w3 tx' (key account) = Ret signed_tx /\
    send_raw_transaction w3 (raw_transaction signed_tx) = Ret tx_hash /\
    wait_for_transaction_receipt w3 tx_hash = Ret receipt.
End Paths.

(* ===================================================================== *)
(** ** Sample configurations *)
(* ===================================================================== *)

(** A 32-byte transaction hash, [0xaa...aa]. *)
Definition sample_tx_hash : list byte := repeat xaa 32.

Definition sample_account : LocalAccount :=
  {| address := "0xAddressOf:k1"; key := list_byte_of_string "k1" |}.

Definition other_account : LocalAccount :=
  {| address := "0xAddressOf:k2"; key := list_byte_of_string "k2" |}.

Definition sample_registry : string := "0x1111111111111111111111111111111111111111".

(** A chain client that answers every call, with the given answer to
    [estimate_gas] and the given receipt status. *)
Definition sample_w3 (gas : outcome Z) (status : pyval) : Web3 :=
  {| is_connected := Ret true;
     eth_contract := fun _ _ => Ret tt;
     functions_register := fun _ _ => Ret tt;
     get_transaction_count := fun _ => Ret 0;
     build_transaction := fun addr url params =>
       Ret (<["to" := PStr addr]> (<["data" := PStr url]> params));
     estimate_gas := fun _ => gas;
     sign_transaction := fun _ k => Ret {| raw_transaction := k |};
     send_raw_transaction := fun _ => Ret sample_tx_hash;
     wait_for_transaction_receipt := fun _ =>
       Ret (<["status" := status]> ∅) |}.

(** A 32-byte transaction hash with every hexadecimal digit in it. *)
Definition varied_tx_hash : list byte :=
  [x01; x23; x45; x67; x89; xab; xcd; xef; xfe; xdc; xba; x98; x76; x54; x32; x10;
   x00; x0f; xf0; xff; x7f; x80; xa5; x5a; x11; x22; x33; x44; x55; x66; x77; x88]%byte.

Definition varied_tx_hash_text : string :=
  "0x0123456789abcdeffedcba9876543210000ff0ff7f80a55a1122334455667788".

(** A chain client that answers every call: the submission with
    [varied_tx_hash], the wait with a receipt of the given status. *)
Definition hashing_w3 (status : pyval) : Web3 :=
  {| is_connected := Ret true;
     eth_contract := fun _ _ => Ret tt;
     functions_register := fun _ _ => Ret tt;
     get_transaction_count := fun _ => Ret 0;
     build_transaction := fun addr url params =>
       Ret (<["to" := PStr addr]> (<["data" := PStr url]> params));
     estimate_gas := fun _ => Ret 21000;
     sign_transaction := fun _ k => Ret {| raw_transaction := k |};
     send_raw_transaction := fun _ => Ret varied_tx_hash;
     wait_for_transaction_receipt := fun _ =>
       Ret (<["status" := status]> ∅) |}.

(** The float [1.0]. *)
Definition float_one : spec_float := S754_finite false 4503599627370496 (-52).

(** A chain client that is not reachable. *)
Definition offline_w3 : Web3 :=
  {| is_connected := Ret false;
     eth_contract := fun _ _ => Raise (Exn OSError "connection refused");
     functions_register := fun _ _ => Raise (Exn OSError "connection refused");
     get_transaction_count := fun _ => Raise (Exn OSError "connection refused");
     build_transaction := fun _ _ _ => Raise (Exn OSError "connection refused");
     estimate_gas := fun _ => Raise (Exn OSError "connection refused");
     sign_transaction := fun _ _ => Raise (Exn OSError "connection refused");
     send_raw_transaction := fun _ => Raise (Exn OSError "connection refused");
     wait_for_transaction_receipt := fun _ =>
       Raise (Exn OSError "connection refused") |}.

(** A chain client behind an address that answers, but not with JSON-RPC:
    the probe itself fails on the answer. *)
Definition garbled_w3 : Web3 :=
  let e := Exn ValueError "Expecting value: line 1 column 1 (char 0)" in
  {| is_connected := Raise e;
     eth_contract := fun _ _ => Raise e;
     functions_register := fun _ _ => Raise e;
     get_transaction_count := fun _ => Raise e;
     build_transaction := fun _ _ _ => Raise e;
     estimate_gas := fun _ => Raise e;
     sign_transaction := fun _ _ => Raise e;
     send_raw_transaction := fun _ => Raise e;
     wait_for_transaction_receipt := fun _ => Raise e |}.

(** Stand-ins for the libraries: the address of a key is its text behind a
    fixed prefix, and a keystore holds the key in the clear. *)
Definition sample_libraries : Libraries :=
  {| Account_from_key := fun k =>
       match k with
       | KeyStr s =>
           if String.eqb s "not-a-key" then
             Raise (Exn ValueError "Non-hexadecimal digit found")
           else Ret {| address := "0xAddressOf:" +:+ s; key := list_byte_of_string s |}
       | KeyBytes b =>
           Ret {| address := "0xAddressOf:" +:+ string_of_list_byte b; key := b |}
       end;
     Account_decrypt := fun keyfile password =>
       if String.eqb password "wrong" then Raise (Exn ValueError "MAC mismatch")
       else Ret (list_byte_of_string keyfile);
     Account_encrypt := fun k _ => Ret (PStr (string_of_list_byte k));
     json_dumps := fun v => match v with PStr s => s | _ => "{}" end;
     to_checksum_address := fun a => Ret a;
     HTTPProvider := fun _ => Ret (sample_w3 (Ret 21000) (PInt 1)) |}.

Definition sample_world (env : gmap string string) (fs : gmap string fsnode)
    (no_access : gset string) (fresh : list LocalAccount) : world :=
  {| environ := env; files := fs; denied := no_access; entropy := fresh;
     log := []; calls := [] |}.

Definition empty_world : world := sample_world ∅ ∅ ∅ [].

(** An instance with a wallet and a registry address, on the given client. *)
Definition ready_state (w3 : Web3) : state :=
  {| self := {| _w3 := Some w3; _account := Some sample_account;
                _registry_address := Some sample_registry |};
     outside := empty_world |}.

(** A fresh instance in the given world: nothing loaded, nothing set. *)
Definition fresh_state (w : world) : state :=
  {| self := {| _w3 := None; _account := None; _registry_address := None |};
     outside := w |}.

(** The transaction [sample_w3] builds for [sample_account]. *)
Definition sample_tx (agent_url : string) : gmap string pyval :=
  <["to" := PStr sample_registry]>
    (<["data" := PStr agent_url]> (tx_params sample_account 0)).

(** [ready_state] on [sample_w3] gets as far as the receipt. *)
Definition sample_receipt (status : pyval) : gmap string pyval :=
  <["status" := status]> ∅.

(** An instance on a connected client with no wallet and no registry
    address. *)
Definition no_wallet_state : state :=
  {| self := {| _w3 := Some (sample_w3 (Ret 21000) (PInt 1)); _account := None;
                _registry_address := None |};
     outside := empty_world |}.

(** An instance with a wallet on a connected client, without a registry
    address. *)
Definition no_registry_state : state :=
  {| self := {| _w3 := Some (sample_w3 (Ret 21000) (PInt 1));
                _account := Some sample_account;
                _registry_address := None |};
     outside := empty_world |}.

(** The failure of a chain that keeps no gas accounting. *)
Definition no_gas_accounting : exn :=
  Exn OtherError "the method eth_estimateGas does not exist".

(** The keystore path [load_or_create_wallet] uses in a world. *)
Definition keystore_file_of (w : world) : string :=
  Path (default DEFAULT_KEYSTORE_PATH (environ w !! "AGENT_KEYSTORE_PATH")).

Section Resolution.
Context `{!Libraries}.

(** The identity the resolution order of [load_or_create_wallet] yields
    in a world: from the raw private key, else from the keystore file,
    else the next generated account. *)
Inductive resolves (w : world) (a : LocalAccount) : Prop :=
  | resolves_private_key password pk :
      environ w !! "AGENT_WALLET_PASSWORD" = Some password -> password <> "" ->
      environ w !! "AGENT_PRIVATE_KEY" = Some pk -> pk <> "" ->
      Account_from_key (KeyStr pk) = Ret a ->
      resolves w a
  | resolves_keystore password content k :
      environ w !! "AGENT_WALLET_PASSWORD" = Some password -> password <> "" ->
      truthy_str (environ w !! "AGENT_PRIVATE_KEY") = false ->
      files w !! keystore_file_of w = Some (RegularFile content) ->
      keystore_file_of w ∉ denied w ->
      Account_decrypt content password = Ret k ->
      Account_from_key (KeyBytes k) = Ret a ->
      resolves w a
  | resolves_created password rest :
      environ w !! "AGENT_WALLET_PASSWORD" = Some password -> password <> "" ->
      truthy_str (environ w !! "AGENT_PRIVATE_KEY") = false ->
      files w !! keystore_file_of w = None ->
      entropy w = a :: rest ->
      resolves w a.
End Resolution.

(** [os.environ[name] = value], done by the process between two calls. *)
Definition setenv (name value : string) (σ : state) : state :=
  with_world (fun w =>
    {| environ := <[name := value]> (environ w); files := files w;
       denied := denied w; entropy := entropy w; log := log w;
       calls := calls w |}) σ.

(** A world whose keystore path cannot be written. *)
Definition unwritable_world : world :=
  sample_world
    (<["AGENT_KEYSTORE_PATH" := "/nonexistent/keystore.json"]>
       {["AGENT_WALLET_PASSWORD" := "pw"]})
    ∅ {["/nonexistent/keystore.json"]} [sample_account; other_account].

(** A world configured with a raw private key. *)
Definition private_key_world (pk : string) : world :=
  sample_world
    (<["AGENT_PRIVATE_KEY" := pk]> {["AGENT_WALLET_PASSWORD" := "pw"]})
    {["agent_keystore.json" := RegularFile "k2"]} ∅ [].


(** A world whose keystore path the operating system refuses to examine:
    the directory it lies in cannot be searched. *)
Definition refused_world : world :=
  sample_world
    (<["AGENT_KEYSTORE_PATH" := "/root/wallet/keystore.json"]>
       {["AGENT_WALLET_PASSWORD" := "pw"]})
    {["/root/wallet/keystore.json" := Refused "[Errno 13] Permission denied"]}
    ∅ [sample_account].

(** A world with a password and nothing else. *)
Definition first_run_world : world :=
  sample_world {["AGENT_WALLET_PASSWORD" := "pw"]} ∅ ∅ [sample_account].

(** The fixed transaction hash of the mock endpoint, written out. *)
Definition mock_tx_hash_text : string :=
  "0xaaaaaaaaaaaaaaaaaaaaaaaaaaaaaaaaaaaaaaaaaaaaaaaaaaaaaaaaaaaaaaaa".

(** A JSON-RPC request body. *)
Definition rpc_request (method : string) (params : option pyval) (id : pyval) :
    gmap string pyval :=
  let base : gmap string pyval :=
    <["jsonrpc" := PStr "2.0"]> (<["method" := PStr method]> {["id" := id]}) in
  match params with
  | Some p => <["params" := p]> base
  | None => base
  end.

(** Two states agree on what [load_or_create_wallet] consults: the
    instance, the environment and the file system. *)
Definition same_configuration (σ1 σ2 : state) : Prop :=
  self σ2 = self σ1 /\
  environ (outside σ2) = environ (outside σ1) /\
  files (outside σ2) = files (outside σ1) /\
  denied (outside σ2) = denied (outside σ1).

(* ===================================================================== *)
(** ** Further vocabulary: call order, known methods, more samples *)
(* ===================================================================== *)

(** The place of a call in the sequence [register] follows. *)
Definition call_rank (c : call) : nat :=
  match c with
  | CallIsConnected => 0
  | CallContract _ => 1
  | CallRegisterFn _ => 2
  | CallGetTransactionCount _ => 3
  | CallBuildTransaction _ => 4
  | CallEstimateGas _ => 5
  | CallSignTransaction _ _ => 6
  | CallSendRawTransaction _ => 7
  | CallWaitForTransactionReceipt _ => 8
  | CallPathExists _ => 9
  | CallOpenRead _ => 10
  | CallOpenWrite _ _ => 11
  end.

Definition is_submission (c : call) : bool :=
  match c with
  | CallSendRawTransaction _ => true
  | _ => false
  end.

Definition is_file_call (c : call) : bool :=
  match c with
  | CallPathExists _ | CallOpenRead _ | CallOpenWrite _ _ => true
  | _ => false
  end.

(** The state a run leaves that made the calls [added] and logged
    [lines], and did nothing else. *)
Definition observed (σ : state) (added : list call)
    (lines : list (level * string)) : state :=
  with_world (fun w =>
    {| environ := environ w; files := files w; denied := denied w;
       entropy := entropy w; log := log w ++ lines;
       calls := calls w ++ added |}) σ.

(** A call that names an identity names [who]: its address as the sender,
    its key for the signature. *)
Definition call_of_identity (who : option LocalAccount) (c : call) : Prop :=
  match c with
  | CallGetTransactionCount a =>
      exists account, who = Some account /\ a = address account
  | CallBuildTransaction params =>
      exists account nonce, who = Some account /\ params = tx_params account nonce
  | CallSignTransaction _ k =>
      exists account, who = Some account /\ k = key account
  | _ => True
  end.

(** The path a file-system call works on. *)
Definition call_path (c : call) : option string :=
  match c with
  | CallPathExists p | CallOpenRead p | CallOpenWrite p _ => Some p
  | _ => None
  end.

(** The log line of the [except] clause that catches [e] in [register]. *)
Definition registration_error_line (e : exn) : level * string :=
  (ERROR,
   match exn_cls e with
   | ContractLogicError => "Contract logic error during registration: "
   | _ => "Unexpected error during registration: "
   end +:+ exn_msg e).

(** The method names [handle_rpc] has a branch for. *)
Definition handled_methods : list string :=
  ["eth_chainId"; "net_version"; "eth_getTransactionCount"; "eth_gasPrice";
   "eth_estimateGas"; "eth_maxPriorityFeePerGas"; "eth_getBlockByNumber";
   "eth_sendRawTransaction"; "eth_getTransactionReceipt"].

(** A chain client whose node rejects the submission with a revert. *)
Definition reverting_w3 : Web3 :=
  {| is_connected := Ret true;
     eth_contract := fun _ _ => Ret tt;
     functions_register := fun _ _ => Ret tt;
     get_transaction_count := fun _ => Ret 0;
     build_transaction := fun addr url params =>
       Ret (<["to" := PStr addr]> (<["data" := PStr url]> params));
     estimate_gas := fun _ => Ret 21000;
     sign_transaction := fun _ k => Ret {| raw_transaction := k |};
     send_raw_transaction := fun _ =>
       Raise (Exn ContractLogicError "execution reverted");
     wait_for_transaction_receipt := fun _ => Ret ∅ |}.

(** A chain client whose receipts carry no status. *)
Definition statusless_w3 : Web3 :=
  {| is_connected := Ret true;
     eth_contract := fun _ _ => Ret tt;
     functions_register := fun _ _ => Ret tt;
     get_transaction_count := fun _ => Ret 0;
     build_transaction := fun addr url params =>
       Ret (<["to" := PStr addr]> (<["data" := PStr url]> params));
     estimate_gas := fun _ => Ret 21000;
     sign_transaction := fun _ k => Ret {| raw_transaction := k |};
     send_raw_transaction := fun _ => Ret sample_tx_hash;
     wait_for_transaction_receipt := fun _ =>
       Ret (<["blockNumber" := PInt 1]> ∅) |}.


(** A second process on the machine of [first_run_world], after the first
    one saved its keystore: a new instance, another entropy state. *)
Definition second_run_state : state :=
  {| self := {| _w3 := Some offline_w3; _account := None;
                _registry_address := Some sample_registry |};
     outside :=
       sample_world {["AGENT_WALLET_PASSWORD" := "pw"]}
         {["agent_keystore.json" := RegularFile "k1"]} ∅ [other_account] |}.

(** A JSON-RPC batch: a list of request objects in one body. *)
Definition rpc_batch : pyval :=
  PList [PDict (rpc_request "eth_chainId" None (PInt 1));
         PDict (rpc_request "net_version" None (PInt 2))].

(** A receipt query with named parameters. *)
Definition receipt_query_by_name : gmap string pyval :=
  rpc_request "eth_getTransactionReceipt"
    (Some (PDict {["hash" := PStr MOCK_TX_HASH]})) (PInt 7).

(** The parameters of a nonce query: an address and a block tag. *)
Definition nonce_query_params : pyval :=
  PList [PStr "0x1111111111111111111111111111111111111111"; PStr "latest"].

(* ===================================================================== *)
(** ** Rounding records and proof automation *)
(* ===================================================================== *)

(** The record [n] right shifts of an exact [m] leave: the quotient, the
    last bit shifted out, and whether anything below it was set. *)
Definition shifted (m n : Z) : shr_record :=
  {| shr_m := m / 2 ^ n;
     shr_r := Z.testbit m (n - 1);
     shr_s := negb (m mod 2 ^ (n - 1) =? 0) && (0 <? n) |}.

(** Symbolic execution of the state-and-exception monad. *)
Ltac run1 :=
  unfold logger, record_call, getenv, getenv_default, set_account,
    path_exists, fs_exists, open_read, open_write, Account_create, with_world,
    modify,
    gets, lift, try_except, mbind, mret, M_bind, M_ret in *;
  cbn [self outside environ files denied entropy log calls _w3 _account
       _registry_address fst snd negb] in *.

Ltac run := repeat progress run1.

Ltac now_none := eexists; split; [run; reflexivity|discriminate].
(** The calls made are the calls before, followed by those just run. *)
Ltac trace_end := run; eexists; rewrite <- !app_assoc; reflexivity.

Ltac split_class :=
  match goal with |- context [exn_cls ?e] => destruct (exn_cls e) end.
Ltac none_raised := split_class; now_none.
Ltac trace_raised := split_class; trace_end.
Ltac same := reflexivity.
Ltac same_raised := split_class; reflexivity.

(** The same, and what follows a signature is the raw transaction sent. *)
Ltac sent :=
  run; eexists;
  (split;
   [rewrite <- !app_assoc; reflexivity
   |let Hsig := fresh in
    intros ? Hsig;
    first [discriminate Hsig|injection Hsig as <-; eexists; reflexivity]]).
Ltac sent_raised := split_class; sent.

(** Case analysis along the [try] block of [register], in the order of the
    calls.  [on_raise] closes the branch where a call raised. *)
Ltac walk_bind w3 on_raise :=
  destruct (eth_contract w3 _ _) as [[]|e] eqn:Hct; [|on_raise];
  destruct (functions_register w3 _ _) as [[]|e] eqn:Hfn; [|on_raise];
  destruct (get_transaction_count w3 _) as [nonce|e] eqn:Hn; [|on_raise];
  destruct (build_transaction w3 _ _ _) as [tx|e] eqn:Hb; [|on_raise].

Ltac walk_build w3 on_raise :=
  destruct (to_checksum_address _) as [addr|e] eqn:Hck; [|on_raise];
  walk_bind w3 on_raise.

Ltac walk_gas w3 :=
  destruct (estimate_gas w3 _) as [g|e0] eqn:Hg;
    [destruct (gas_with_buffer _) as [gas|e0] eqn:Hgas|].

(** [on_missing] closes the branch of a receipt without status and
    [on_other] that of a status other than 1; the branch left is that of a
    status equal to 1. *)
Ltac walk_submit w3 on_raise on_missing on_other :=
  destruct (sign_transaction w3 _ _) as [signed|e] eqn:Hs; [|on_raise];
  destruct (send_raw_transaction w3 _) as [tx_hash|e] eqn:Hsend; [|on_raise];
  destruct (wait_for_transaction_receipt w3 _) as [receipt|e] eqn:Hw;
    [|on_raise];
  unfold dict_getitem;
  match goal with
  | |- context [?r !! "status"] =>
      destruct (r !! "status") as [status|] eqn:Hst
  end; [|on_missing];
  destruct (py_eq_int _ 1) eqn:Heq; [|on_other].

(** Symbolic execution of the mock handler. *)
Ltac run_rpc :=
  unfold handle_rpc, rpc_logger, py_get;
  repeat progress
    (unfold modify, gets, lift, try_except, mbind, mret, M_bind, M_ret;
     cbn [fst snd default from_option id]).

(* ===================================================================== *)
(** * Properties *)
(* ===================================================================== *)

(** *** Binary64 rounding *)

Lemma digits2_pos_bounds (p : positive) :
  2 ^ (Z.pos (digits2_pos p) - 1) <= Z.pos p < 2 ^ Z.pos (digits2_pos p).
Proof.
  induction p as [p IH | p IH | ]; cbn [digits2_pos].
  - rewrite Pos2Z.inj_succ, Z.pow_succ_r by lia.
    replace (Z.succ (Z.pos (digits2_pos p)) - 1) with (Z.succ (Z.pos (digits2_pos p) - 1)) by lia.
    rewrite Z.pow_succ_r by lia. lia.
  - rewrite Pos2Z.inj_succ, Z.pow_succ_r by lia.
    replace (Z.succ (Z.pos (digits2_pos p)) - 1) with (Z.succ (Z.pos (digits2_pos p) - 1)) by lia.
    rewrite Z.pow_succ_r by lia. lia.
  - simpl. lia.
Qed.

Lemma digits2_pos_unique (p : positive) (d : Z) :
  2 ^ (d - 1) <= Z.pos p < 2 ^ d -> Z.pos (digits2_pos p) = d.
Proof.
  intros [Hl Hu]. pose proof (digits2_pos_bounds p) as [Bl Bu].
  set (c := Z.pos (digits2_pos p)) in *.
  assert (0 < d).
  { destruct (Z_lt_le_dec 0 d) as [|Hd]; [easy|].
    destruct (Z.eq_dec d 0) as [->|]; [simpl in Hu; lia|].
    rewrite Z.pow_neg_r in Hu by lia. lia. }
  destruct (Z_lt_le_dec c d) as [Hc|Hc].
  - assert (2 ^ c <= 2 ^ (d - 1)) by (apply Z.pow_le_mono_r; lia). lia.
  - destruct (Z_lt_le_dec d c) as [Hd|Hd]; [|lia].
    assert (2 ^ d <= 2 ^ (c - 1)) by (apply Z.pow_le_mono_r; lia). lia.
Qed.

Lemma shr_1_nonneg (q : Z) (r s : bool) :
  0 <= q ->
  shr_1 {| shr_m := q; shr_r := r; shr_s := s |}
  = {| shr_m := q / 2; shr_r := Z.odd q; shr_s := r || s |}.
Proof.
  intros Hq. rewrite <- Z.div2_div.
  destruct q as [ | [p | p | ] | p]; try lia; reflexivity.
Qed.

Lemma mod_pow2_split (m n : Z) :
  0 <= m -> 1 <= n ->
  m mod 2 ^ n = (if Z.testbit m (n - 1) then 2 ^ (n - 1) else 0) + m mod 2 ^ (n - 1).
Proof.
  intros Hm Hn.
  replace n with (n - 1 + 1) at 1 by lia.
  rewrite Z.pow_add_r, Z.pow_1_r by lia.
  rewrite Z.rem_mul_r by lia.
  pose proof (Z.testbit_spec' m (n - 1) ltac:(lia)) as B.
  destruct (Z.testbit m (n - 1)); simpl in B; rewrite <- B; lia.
Qed.

Lemma shr_1_shifted (m n : Z) :
  0 <= m -> 0 <= n -> shr_1 (shifted m n) = shifted m (n + 1).
Proof.
  intros Hm Hn. unfold shifted.
  rewrite shr_1_nonneg by (apply Z.div_pos; lia).
  f_equal.
  - rewrite Z.pow_add_r, Z.pow_1_r, Z.div_div by lia. reflexivity.
  - replace (n + 1 - 1) with n by lia.
    rewrite <- Z.bit0_odd, <- Z.shiftr_div_pow2, Z.shiftr_spec by lia.
    reflexivity.
  - replace (n + 1 - 1) with n by lia.
    replace (0 <? n + 1) with true by (symmetry; apply Z.ltb_lt; lia).
    rewrite andb_true_r.
    destruct (Z.eq_dec n 0) as [->|Hn0].
    + change (0 <? 0) with false.
      rewrite andb_false_r, Z.testbit_neg_r by lia.
      change (2 ^ 0) with 1. rewrite Z.mod_1_r. reflexivity.
    + replace (0 <? n) with true by (symmetry; apply Z.ltb_lt; lia).
      rewrite andb_true_r.
      rewrite (mod_pow2_split m n) by lia.
      pose proof (Z.mod_pos_bound m (2 ^ (n - 1)) ltac:(apply Z.pow_pos_nonneg; lia)).
      assert (0 < 2 ^ (n - 1)) by (apply Z.pow_pos_nonneg; lia).
      destruct (Z.testbit m (n - 1)); simpl.
      * symmetry. apply negb_true_iff, Z.eqb_neq. lia.
      * reflexivity.
Qed.

Lemma iter_pos_shr_1 (p : positive) (m n : Z) :
  0 <= m -> 0 <= n ->
  SpecFloat.iter_pos shr_1 p (shifted m n) = shifted m (n + Z.pos p).
Proof.
  intros Hm. revert n.
  induction p as [p IH | p IH | ]; intros n Hn; cbn [SpecFloat.iter_pos].
  - rewrite shr_1_shifted, !IH by lia. f_equal. lia.
  - rewrite !IH by lia. f_equal. lia.
  - apply shr_1_shifted; lia.
Qed.

Lemma shifted_0 (m : Z) :
  {| shr_m := m; shr_r := false; shr_s := false |} = shifted m 0.
Proof.
  unfold shifted. simpl. rewrite Z.div_1_r, andb_false_r. reflexivity.
Qed.

(** Rounding the shifted record to nearest, ties to even, moves the exact
    value by at most half a unit of the last kept place. *)
Lemma round_nearest_even_shifted (P n : Z) :
  0 <= P -> 1 <= n ->
  let m1 := round_nearest_even (shr_m (shifted P n))
              (loc_of_shr_record (shifted P n)) in
  P / 2 ^ n <= m1 <= P / 2 ^ n + 1 /\
  2 * (m1 * 2 ^ n) <= 2 * P + 2 ^ n /\
  2 * P <= 2 * (m1 * 2 ^ n) + 2 ^ n.
Proof.
  intros HP Hn. cbv zeta.
  assert (Hh : 0 < 2 ^ (n - 1)) by (apply Z.pow_pos_nonneg; lia).
  assert (E2 : 2 ^ n = 2 * 2 ^ (n - 1)).
  { replace n with (n - 1 + 1) at 1 by lia.
    rewrite Z.pow_add_r, Z.pow_1_r by lia. lia. }
  pose proof (Z.div_mod P (2 ^ n) ltac:(lia)) as D.
  pose proof (mod_pow2_split P n HP Hn) as S.
  pose proof (Z.mod_pos_bound P (2 ^ (n - 1)) Hh) as L.
  unfold shifted, loc_of_shr_record. cbn [shr_m].
  replace (0 <? n) with true by (symmetry; apply Z.ltb_lt; lia).
  rewrite andb_true_r.
  set (q := P / 2 ^ n) in *. set (low := P mod 2 ^ (n - 1)) in *.
  set (h := 2 ^ (n - 1)) in *.
  destruct (Z.testbit P (n - 1)); destruct (Z.eqb_spec low 0) as [E0|E0];
    cbn [negb round_nearest_even].
  - destruct (Z.even q); lia.
  - lia.
  - lia.
  - lia.
Qed.

(** A mantissa of exactly 53 digits in exponent range is kept as it is. *)
Lemma binary_round_aux_exact (m : positive) (e : Z) :
  Z.pos (digits2_pos m) = 53 -> -1074 <= e <= 971 ->
  binary_round_aux prec emax false (Z.pos m) e loc_Exact = S754_finite false m e.
Proof.
  intros Hd He.
  unfold binary_round_aux, shr_fexp, Zdigits2. rewrite Hd.
  replace (fexp prec emax (53 + e) - e) with 0
    by (unfold fexp, SpecFloat.emin, prec, emax; lia).
  cbn [shr shr_record_of_loc shr_m loc_of_shr_record round_nearest_even Zdigits2].
  rewrite Hd.
  replace (fexp prec emax (53 + e) - e) with 0
    by (unfold fexp, SpecFloat.emin, prec, emax; lia).
  cbn [shr shr_record_of_loc shr_m].
  replace (e <=? emax - prec) with true
    by (symmetry; apply Z.leb_le; unfold prec, emax; lia).
  reflexivity.
Qed.

(** A longer mantissa is shifted to 53 digits and rounded to nearest. *)
Lemma binary_round_aux_round (mx : positive) (ex n : Z) :
  n = Z.pos (digits2_pos mx) - 53 -> 1 <= n ->
  -1074 <= ex + n -> ex + n + 1 <= 971 ->
  exists (m1 : Z) (m : positive) (e : Z),
    binary_round_aux prec emax false (Z.pos mx) ex loc_Exact
    = S754_finite false m e /\
    2 * (m1 * 2 ^ n) <= 2 * Z.pos mx + 2 ^ n /\
    2 * Z.pos mx <= 2 * (m1 * 2 ^ n) + 2 ^ n /\
    ((Z.pos m = m1 /\ e = ex + n) \/ (m1 = 2 * Z.pos m /\ e = ex + n + 1)).
Proof.
  intros Hn Hn1 Hlo Hhi.
  pose proof (digits2_pos_bounds mx) as [Bl Bu].
  assert (Hd : Z.pos (digits2_pos mx) = n + 53) by lia.
  rewrite Hd in Bl, Bu.
  replace (n + 53 - 1) with (52 + n) in Bl by lia.
  replace (n + 53) with (53 + n) in Bu by lia.
  rewrite Z.pow_add_r in Bl, Bu by lia.
  assert (Hp : 0 < 2 ^ n) by (apply Z.pow_pos_nonneg; lia).
  pose proof (round_nearest_even_shifted (Z.pos mx) n ltac:(lia) Hn1) as R.
  cbv zeta in R. destruct R as [[Rq1 Rq2] [R1 R2]].
  assert (Hq : 2 ^ 52 <= Z.pos mx / 2 ^ n < 2 ^ 53).
  { split.
    - apply Z.div_le_lower_bound; lia.
    - apply Z.div_lt_upper_bound; lia. }
  unfold binary_round_aux, shr_fexp.
  replace (Zdigits2 (Z.pos mx)) with (n + 53) by (cbn [Zdigits2]; lia).
  replace (fexp prec emax (n + 53 + ex) - ex) with n
    by (unfold fexp, SpecFloat.emin, prec, emax; lia).
  cbn [shr_record_of_loc]. rewrite shifted_0.
  clear Hn Hd.
  destruct n as [ | pn | pn ]; try lia.
  cbn [shr]. rewrite iter_pos_shr_1 by lia.
  replace (0 + Z.pos pn) with (Z.pos pn) by lia.
  set (m1 := round_nearest_even (shr_m (shifted (Z.pos mx) (Z.pos pn)))
               (loc_of_shr_record (shifted (Z.pos mx) (Z.pos pn)))) in *.
  exists m1.
  destruct (Z_lt_le_dec m1 (2 ^ 53)) as [Hlt|Hge].
  - destruct m1 as [ | pm | pm ] eqn:Em; try lia.
    assert (Hd : Z.pos (digits2_pos pm) = 53)
      by (apply digits2_pos_unique; lia).
    exists pm, (ex + Z.pos pn).
    split; [|split; [lia|split; [lia|left; split; reflexivity]]].
    cbn [Zdigits2]. rewrite Hd.
    replace (fexp prec emax (53 + (ex + Z.pos pn)) - (ex + Z.pos pn)) with 0
      by (unfold fexp, SpecFloat.emin, prec, emax; lia).
    cbn [shr shr_record_of_loc shr_m].
    replace (ex + Z.pos pn <=? emax - prec) with true
      by (symmetry; apply Z.leb_le; unfold prec, emax; lia).
    reflexivity.
  - assert (Em : m1 = 2 ^ 53) by lia.
    exists (4503599627370496%positive), (ex + Z.pos pn + 1).
    split; [|split; [lia|split; [lia|right; split; [rewrite Em; reflexivity|reflexivity]]]].
    rewrite Em. change (2 ^ 53) with 9007199254740992.
    replace (Zdigits2 9007199254740992) with 54 by (vm_compute; reflexivity).
    replace (fexp prec emax (54 + (ex + Z.pos pn)) - (ex + Z.pos pn)) with 1
      by (unfold fexp, SpecFloat.emin, prec, emax; lia).
    cbn [shr shr_record_of_loc shr_m SpecFloat.iter_pos shr_1].
    replace (ex + Z.pos pn + 1 <=? emax - prec) with true
      by (symmetry; apply Z.leb_le; unfold prec, emax; lia).
    reflexivity.
Qed.

Lemma pos_iter_xO (p k : positive) :
  Z.pos (Pos.iter xO p k) = Z.pos p * 2 ^ Z.pos k.
Proof.
  induction k as [ | k IH] using Pos.peano_ind.
  - simpl. lia.
  - rewrite Pos.iter_succ, Pos2Z.inj_xO, IH, Pos2Z.inj_succ, Z.pow_succ_r by lia.
    lia.
Qed.

(** [float(n)] is exact below [2 ^ 53]: a 53-digit mantissa [n * 2 ^ k]
    with exponent [- k]. *)
Lemma float_of_int_exact (n : positive) :
  Z.pos n < 2 ^ 53 ->
  exists (mz : positive) (k : Z),
    float_of_int (Z.pos n) = Ret (S754_finite false mz (- k)) /\
    0 <= k <= 52 /\
    Z.pos mz = Z.pos n * 2 ^ k /\
    2 ^ 52 <= Z.pos mz < 2 ^ 53.
Proof.
  intros Hn.
  pose proof (digits2_pos_bounds n) as [Bl Bu].
  set (d := Z.pos (digits2_pos n)) in *.
  assert (Hd : 1 <= d <= 53).
  { split; [unfold d; lia|].
    destruct (Z_lt_le_dec 53 d) as [H|H]; [|lia].
    assert (2 ^ 53 <= 2 ^ (d - 1)) by (apply Z.pow_le_mono_r; lia). lia. }
  unfold float_of_int, binary_normalize, binary_round, shl_align.
  fold d.
  replace (fexp prec emax (d + 0) - 0) with (d - 53)
    by (unfold fexp, SpecFloat.emin, prec, emax; lia).
  replace (fexp prec emax (d + 0)) with (d - 53)
    by (unfold fexp, SpecFloat.emin, prec, emax; lia).
  destruct (d - 53) as [ | pk | pk ] eqn:Ek; try lia.
  - assert (d = 53) by lia.
    exists n, 0. rewrite binary_round_aux_exact by (fold d; lia).
    replace (d - 1) with 52 in Bl by lia. replace d with 53 in Bu by lia.
    repeat split; try lia.
  - assert (Ez : Z.pos (Pos.iter xO n pk) = Z.pos n * 2 ^ (53 - d))
      by (rewrite pos_iter_xO; f_equal; f_equal; lia).
    assert (Hb : 2 ^ 52 <= Z.pos (Pos.iter xO n pk) < 2 ^ 53).
    { rewrite Ez.
      assert (P52 : 2 ^ 52 = 2 ^ (d - 1) * 2 ^ (53 - d))
        by (rewrite <- Z.pow_add_r by lia; f_equal; lia).
      assert (P53 : 2 ^ 53 = 2 ^ d * 2 ^ (53 - d))
        by (rewrite <- Z.pow_add_r by lia; f_equal; lia).
      assert (0 < 2 ^ (53 - d)) by (apply Z.pow_pos_nonneg; lia).
      rewrite P52, P53.
      split; [apply Z.mul_le_mono_nonneg_r; lia|apply Z.mul_lt_mono_pos_r; lia]. }
    exists (Pos.iter xO n pk), (53 - d).
    rewrite binary_round_aux_exact
      by (try (apply digits2_pos_unique; lia); lia).
    replace (Z.neg pk) with (- (53 - d)) by lia.
    repeat split; try lia.
Qed.

(** The arithmetic core: a mantissa within half a unit of [mz * 1.2],
    cut at the binary point, is the integer part of [6 * e / 5]. *)
Lemma buffer_arith (e mz A T N m1 P : Z) :
  0 < e -> 4 <= A -> 0 < T ->
  mz = e * A -> 2 ^ 52 <= mz < 2 ^ 53 ->
  P = mz * 5404319552844595 ->
  (N = 2 ^ 52 \/ N = 2 ^ 53) ->
  2 ^ 52 * N <= P ->
  T * N = A * 2 ^ 52 ->
  2 * (m1 * N) <= 2 * P + N ->
  2 * P <= 2 * (m1 * N) + N ->
  m1 / T = 6 * e / 5.
Proof.
  intros He HA HT Hmz Hb HP HN HPl HTN R1 R2.
  pose proof (Z.div_mod (6 * e) 5 ltac:(lia)) as D.
  pose proof (Z.mod_pos_bound (6 * e) 5 ltac:(lia)) as B.
  set (Q := 6 * e / 5) in *.
  assert (HX : 5 * (Q * A) <= 6 * mz <= 5 * (Q * A) + 4 * A) by nia.
  assert (HY : Q * T * N = Q * A * 2 ^ 52) by nia.
  set (X := Q * A) in *. set (Y := Q * T) in *.
  change (2 ^ 52) with 4503599627370496 in *.
  change (2 ^ 53) with 9007199254740992 in *.
  assert (Hlo : Y <= m1).
  { destruct (Z_lt_le_dec m1 Y) as [C|C]; [exfalso|exact C].
    assert ((m1 + 1) * N <= Y * N) by (destruct HN; subst N; lia).
    destruct HN; subst N; lia. }
  assert (Hhi : m1 < Y + T).
  { destruct (Z_lt_le_dec m1 (Y + T)) as [C|C]; [exact C|exfalso].
    assert ((Y + T) * N <= m1 * N) by (destruct HN; subst N; lia).
    destruct HN; subst N; lia. }
  symmetry. apply Z.div_unique with (r := m1 - Y); unfold Y in *; lia.
Qed.

(** Below [2 ^ 51] the double product, truncated, is the exact integer
    part of 1.2 times the estimate. *)
Lemma gas_with_buffer_exact (e : Z) :
  0 <= e < 2 ^ 51 -> gas_with_buffer e = Ret (6 * e / 5).
Proof.
  intros [He0 He].
  destruct e as [ | n | n ]; try lia; [reflexivity|].
  destruct (float_of_int_exact n ltac:(lia)) as (mz & k & Hf & Hk & Hmz & Hb).
  assert (Hk2 : 2 <= k).
  { destruct (Z_lt_le_dec k 2) as [C|C]; [exfalso|exact C].
    assert (2 ^ k <= 2 ^ 1) by (apply Z.pow_le_mono_r; lia).
    change (2 ^ 1) with 2 in *. change (2 ^ 51) with 2251799813685248 in *.
    change (2 ^ 52) with 4503599627370496 in *. nia. }
  assert (HA : 4 <= 2 ^ k).
  { change 4 with (2 ^ 2). apply Z.pow_le_mono_r; lia. }
  unfold gas_with_buffer, int_mul_float. rewrite Hf.
  unfold float_1_2. cbn [SFmul xorb].
  set (P := (mz * 5404319552844595)%positive).
  assert (HP : Z.pos P = Z.pos mz * 5404319552844595) by (unfold P; lia).
  pose proof (digits2_pos_bounds P) as [Bl Bu].
  set (d := Z.pos (digits2_pos P)) in *.
  assert (Hd : d = 105 \/ d = 106).
  { change (2 ^ 52) with 4503599627370496 in *.
    change (2 ^ 53) with 9007199254740992 in *.
    destruct (Z_lt_le_dec d 105) as [C|C].
    - assert (2 ^ d <= 2 ^ 104) by (apply Z.pow_le_mono_r; lia).
      change (2 ^ 104) with 20282409603651670423947251286016 in *. nia.
    - destruct (Z_lt_le_dec 106 d) as [C'|C']; [|lia].
      assert (2 ^ 106 <= 2 ^ (d - 1)) by (apply Z.pow_le_mono_r; lia).
      change (2 ^ 106) with 81129638414606681695789005144064 in *. nia. }
  destruct (binary_round_aux_round P (- k + -52) (d - 53)
              ltac:(reflexivity) ltac:(lia) ltac:(lia) ltac:(lia))
    as (m1 & m & e' & Hr & R1 & R2 & Hcase).
  rewrite Hr. cbn [int_of_float].
  set (t := k + 52 - (d - 53)).
  assert (Ht : 1 <= t) by (unfold t; lia).
  assert (HT : 0 < 2 ^ t) by (apply Z.pow_pos_nonneg; lia).
  assert (HTN : 2 ^ t * 2 ^ (d - 53) = 2 ^ k * 2 ^ 52).
  { rewrite <- !Z.pow_add_r by lia. f_equal. unfold t. lia. }
  assert (HN : 2 ^ (d - 53) = 2 ^ 52 \/ 2 ^ (d - 53) = 2 ^ 53).
  { destruct Hd as [-> | ->]; [left|right]; reflexivity. }
  assert (HPl : 2 ^ 52 * 2 ^ (d - 53) <= Z.pos P).
  { rewrite <- Z.pow_add_r by lia. replace (52 + (d - 53)) with (d - 1) by lia.
    exact Bl. }
  pose proof (buffer_arith (Z.pos n) (Z.pos mz) (2 ^ k) (2 ^ t) (2 ^ (d - 53))
                m1 (Z.pos P) ltac:(lia) HA HT Hmz Hb HP HN HPl HTN R1 R2) as Hdiv.
  f_equal. rewrite <- Hdiv.
  destruct Hcase as [[Hm He'] | [Hm He']]; subst e'.
  - replace (0 <=? - k + -52 + (d - 53)) with false
      by (symmetry; apply Z.leb_gt; lia).
    rewrite Hm. f_equal. f_equal. unfold t. lia.
  - subst m1.
    replace (2 ^ t) with (2 * 2 ^ (t - 1)).
    2:{ replace t with (t - 1 + 1) at 2 by lia.
        rewrite Z.pow_add_r, Z.pow_1_r by lia. lia. }
    rewrite Z.div_mul_cancel_l by (try apply Z.pow_nonzero; lia).
    destruct (Z.leb_spec 0 (- k + -52 + (d - 53) + 1)) as [C|C].
    + replace (t - 1) with 0 by (unfold t; lia).
      replace (- k + -52 + (d - 53) + 1) with 0 by lia.
      change (2 ^ 0) with 1. rewrite Z.div_1_r. lia.
    + f_equal. f_equal. unfold t. lia.
Qed.

Lemma truthy_str_Some (s : string) : s <> "" -> truthy_str (Some s) = true.
Proof.
  intros Hs. unfold truthy_str. apply negb_true_iff, String.eqb_neq, Hs.
Qed.

Lemma truthy_str_true (o : option string) :
  truthy_str o = true -> exists s, o = Some s /\ s <> "".
Proof.
  destruct o as [s|]; [|discriminate]. intros Hs. exists s. split; [reflexivity|].
  apply String.eqb_neq, negb_true_iff, Hs.
Qed.

Section RegisterFacts.
Context `{!Libraries}.

Lemma register_mock_run (agent_url : string) (σ : state) :
  register agent_url true σ
  = (Ret (Some placeholder_hash),
     with_world (fun w =>
       {| environ := environ w; files := files w; denied := denied w;
          entropy := entropy w;
          log := log w ++
            [(INFO, "[MOCK] Registering agent URL: " +:+ agent_url);
             (INFO, "[MOCK] Wallet Address: " +:+
                    match _account (self σ) with
                    | Some a => address a
                    | None => "N/A"
                    end)];
          calls := calls w |}) σ).
Proof.
  unfold register. run. rewrite <- app_assoc. reflexivity.
Qed.

Lemma register_receipt σ agent_url tx_hash receipt :
  submitted σ agent_url tx_hash receipt ->
  fst (register agent_url false σ)
  = Ret (match receipt !! "status" with
         | Some status =>
             if py_eq_int status 1 then Some (to_hex tx_hash) else None
         | None => None
         end).
Proof.
  intros (w3 & account & addr & nonce & tx & tx' & signed & B & G & Hs & Hsend & Hw).
  destruct B as [Hw3 Hc Ha (registry & Hr & Hne & Hck) Hct Hfn Hn Hb].
  unfold tx_params in Hb.
  unfold register. run. rewrite Hw3. run. rewrite Hc. run. rewrite Ha. run.
  rewrite Hr, (truthy_str_Some _ Hne). run. cbn [default from_option id].
  rewrite Hck, Hct, Hfn, Hn, Hb.
  destruct G as [g gas Hg Hgas | e Hg | g e Hg Hgas]; rewrite Hg; try rewrite Hgas;
    rewrite Hs, Hsend, Hw; unfold dict_getitem;
    destruct (receipt !! "status") as [status|]; try reflexivity;
    destruct (py_eq_int status 1); reflexivity.
Qed.

(** The call raises what the connection probe raises, and nothing else.
    Where the probe returns, the call returns; it returns a hash only
    after a submitted transaction whose receipt reports success. *)
Lemma register_returns σ agent_url :
  match connected (self σ) with
  | Raise e => fst (register agent_url false σ) = Raise e
  | Ret _ =>
      exists r,
        fst (register agent_url false σ) = Ret r /\
        forall h, r = Some h ->
          exists tx_hash receipt status,
            submitted σ agent_url tx_hash receipt /\
            receipt !! "status" = Some status /\
            py_eq_int status 1 = true /\
            h = to_hex tx_hash
  end.
Proof.
  unfold connected, register. run.
  destruct (_w3 (self σ)) as [w3|] eqn:Hw3; run;
    [|now_none].
  destruct (is_connected w3) as [[|]|e] eqn:Hc; run;
    [|now_none|reflexivity].
  destruct (_account (self σ)) as [account|] eqn:Ha; run;
    [|now_none].
  destruct (truthy_str (_registry_address (self σ))) eqn:Hr; run;
    [|now_none].
  apply truthy_str_true in Hr as (registry & Hr & Hne). rewrite Hr.
  cbn [default from_option id].
  walk_build w3 none_raised.
  assert (B : built σ agent_url w3 account addr nonce tx)
    by (constructor; eauto).
  walk_gas w3; walk_submit w3 none_raised now_none now_none.
  all: match type of Hs with
       | sign_transaction _ ?t _ = _ =>
           assert (G : gas_step w3 tx t)
             by eauto using gas_buffered, gas_estimate_failed, gas_buffer_failed
       end.
  all: eexists; split; [run; reflexivity|]; intros h [= <-].
  all: exists tx_hash, receipt, status.
  all: split; [|split; [assumption|split; [assumption|reflexivity]]].
  all: do 7 eexists; split; [exact B|]; split; [exact G|]; split; [exact Hs|];
       split; [exact Hsend|exact Hw].
Qed.
End RegisterFacts.

Lemma hex_of_byte_canonical (b : byte) :
  exists c1 c2, hex_of_byte b = String c1 (String c2 "") /\
                is_hex_char c1 = true /\ is_hex_char c2 = true.
Proof. destruct b; do 2 eexists; repeat split. Qed.

Lemma hexlify_canonical (b : list byte) :
  String.length (hexlify b) = (2 * length b)%nat /\
  forallb is_hex_char (list_ascii_of_string (hexlify b)) = true.
Proof.
  induction b as [ | x b [IHl IHc]]; [split; reflexivity|].
  destruct (hex_of_byte_canonical x) as (c1 & c2 & E & H1 & H2).
  cbn [hexlify]. rewrite E.
  change (String c1 (String c2 "") +:+ hexlify b)
    with (String c1 (String c2 (hexlify b))).
  cbn [String.length list_ascii_of_string forallb length].
  rewrite IHl, H1, H2, IHc. split; [lia|reflexivity].
Qed.

Lemma to_hex_canonical (b : list byte) : canonical_hex (length b) (to_hex b).
Proof.
  exists (hexlify b). split; [reflexivity|]. apply hexlify_canonical.
Qed.

(* ===================================================================== *)
(** ** Properties of [register] *)
(* ===================================================================== *)

(** C2. For every URL and every instance state, wallet and chain client
    loaded or not, [register(agent_url, mock=True)] returns the fixed
    placeholder hash, "0x" followed by 64 zeros, and makes no call to the
    chain client or the file system: instance, environment, files and
    entropy are as before, and only two log lines are added. *)
Theorem register_mock_placeholder `{!Libraries} (agent_url : string) (σ : state) :
  let result := register agent_url true σ in
  fst result = Ret (Some placeholder_hash) /\
  placeholder_hash = "0x" +:+ str_mul "0" 64 /\
  String.length placeholder_hash = 66%nat /\
  calls (outside (snd result)) = calls (outside σ) /\
  self (snd result) = self σ /\
  files (outside (snd result)) = files (outside σ) /\
  environ (outside (snd result)) = environ (outside σ) /\
  entropy (outside (snd result)) = entropy (outside σ).
Proof.
  cbv zeta. rewrite register_mock_run. repeat split; reflexivity.
Qed.

(** C1 (as amended).  Where the connection test returns (no chain client,
    or a client whose probe answers), [register(agent_url, mock=False)]
    returns for every URL and every instance state: no exception reaches
    the caller.  The value is [None] when the chain client is absent or
    not connected, when no wallet is loaded and when no registry address
    is set; it is a hash only when every call up to the receipt returned
    and the receipt reports success, so that any other failure gives
    [None] as well. *)
Theorem register_never_raises `{!Libraries} (agent_url : string) (σ : state) :
  (exists up : bool, connected (self σ) = Ret up) ->
  exists r : option string,
    fst (register agent_url false σ) = Ret r /\
    (connected (self σ) = Ret false -> r = None) /\
    (_account (self σ) = None -> r = None) /\
    (truthy_str (_registry_address (self σ)) = false -> r = None) /\
    (forall h, r = Some h ->
       exists tx_hash receipt status,
         submitted σ agent_url tx_hash receipt /\
         receipt !! "status" = Some status /\
         py_eq_int status 1 = true /\
         h = to_hex tx_hash).
Proof.
  intros [up Hup]. pose proof (register_returns σ agent_url) as Hret.
  rewrite Hup in Hret. destruct Hret as (r & Hr & Hinv).
  exists r. split; [exact Hr|].
  assert (Hnone : (forall h, r = Some h -> False) -> r = None).
  { destruct r as [h|]; [|reflexivity]. intros C. destruct (C h eq_refl). }
  repeat split; try exact Hinv; intros Hfail; apply Hnone; intros h Hh;
    destruct (Hinv h Hh) as (tx_hash & receipt & status & S & _);
    destruct S as (w3 & account & addr & nonce & tx & tx' & signed & B & _);
    destruct B as [Hw3 Hc Ha (registry & Hreg & Hne & _) _ _ _ _].
  - unfold connected in Hfail. rewrite Hw3 in Hfail. congruence.
  - congruence.
  - rewrite Hreg, (truthy_str_Some _ Hne) in Hfail. discriminate.
Qed.

Lemma register_never_raises_offline :
  exists r : option string,
    fst (@register sample_libraries "http://test.agent" false (ready_state offline_w3))
    = Ret r /\ r = None.
Proof.
  destruct (@register_never_raises sample_libraries "http://test.agent"
              (ready_state offline_w3) (ex_intro _ false eq_refl))
    as (r & Hr & Hoff & _).
  exists r. split; [exact Hr|]. apply Hoff. reflexivity.
Defined.

(** The claim as first stated fails where the probe itself raises: the
    test of the connection stands before the [try], so what the probe
    raises reaches the caller of [register]. *)
Lemma register_raises_at_probe :
  let result :=
    @register sample_libraries "http://test.agent" false (ready_state garbled_w3) in
  fst result = Raise (Exn ValueError "Expecting value: line 1 column 1 (char 0)") /\
  ~ (exists r : option string, fst result = Ret r).
Proof.
  cbv zeta. split; [reflexivity|]. intros [r Hr]. discriminate Hr.
Qed.

(** The digits [to_hex] prints are those of the canonical text. *)
Lemma to_hex_text (b : list byte) : to_hex b = "0x" +:+ hex_text b.
Proof.
  unfold to_hex. f_equal. induction b as [|x b IH]; [reflexivity|].
  cbn [hexlify hex_text]. rewrite IH. f_equal. destruct x; reflexivity.
Qed.

(** The comparison [status == 1] holds exactly of the values that equal 1. *)
Lemma py_eq_int_one (v : pyval) : equals_one v <-> py_eq_int v 1 = true.
Proof.
  destruct v as [ |b|n|f|s|bs|l|d]; cbn [equals_one py_eq_int];
    try (split; [intros []|discriminate]).
  - destruct b; split; (reflexivity || discriminate).
  - symmetry. apply Z.eqb_eq.
  - destruct f as [sg|sg| |sg m e]; cbn [float_eq_int];
      try (split; [intros []|discriminate]).
    destruct sg.
    + split; [intros []|]. destruct (0 <=? e) eqn:He; intros Heq.
      * apply Z.eqb_eq in Heq. apply Z.leb_le in He.
        pose proof (Z.pow_nonneg 2 e ltac:(lia)). nia.
      * apply Z.eqb_eq in Heq. apply Z.leb_gt in He.
        pose proof (Z.pow_nonneg 2 (- e) ltac:(lia)). lia.
    + destruct (0 <=? e) eqn:He.
      * apply Z.leb_le in He. rewrite Z.eqb_eq. split; [|tauto].
        intros [[_ H1]|[H2 _]]; [exact H1|lia].
      * apply Z.leb_gt in He. rewrite Z.eqb_eq, Z.mul_1_l. split; [|tauto].
        intros [[H1 _]|[_ H2]]; [lia|exact H2].
Qed.

(** C3. Once the transaction is submitted and a receipt observed,
    [register] returns the transaction hash in canonical form ("0x", then
    for each byte its two lower-case hexadecimal digits, high half first)
    when [receipt['status'] == 1], that is for the integer 1, [True] or a
    float of value 1, and [None] for every other status, a string or a
    null included. *)
Theorem register_receipt_status `{!Libraries}
    (σ : state) (agent_url : string) (tx_hash : list byte)
    (receipt : gmap string pyval) (status : pyval) :
  submitted σ agent_url tx_hash receipt ->
  receipt !! "status" = Some status ->
  let result := fst (register agent_url false σ) in
  (equals_one status -> result = Ret (Some ("0x" +:+ hex_text tx_hash))) /\
  (~ equals_one status -> result = Ret None) /\
  to_hex tx_hash = "0x" +:+ hex_text tx_hash /\
  canonical_hex (length tx_hash) ("0x" +:+ hex_text tx_hash).
Proof.
  intros Hsub Hst. cbv zeta.
  rewrite (register_receipt _ _ _ _ Hsub), Hst, <- to_hex_text.
  split; [|split; [|split; [reflexivity|apply to_hex_canonical]]]; intros Hone.
  - apply py_eq_int_one in Hone. rewrite Hone. reflexivity.
  - destruct (py_eq_int status 1) eqn:Heq; [|reflexivity].
    destruct Hone. apply py_eq_int_one, Heq.
Qed.

Lemma sample_built (gas : outcome Z) (status : pyval) (agent_url : string) :
  @built sample_libraries (ready_state (sample_w3 gas status)) agent_url
    (sample_w3 gas status) sample_account sample_registry 0 (sample_tx agent_url).
Proof.
  constructor; try reflexivity.
  exists sample_registry. repeat split. discriminate.
Defined.

Lemma sample_submitted (status : pyval) (agent_url : string) :
  @submitted sample_libraries (ready_state (sample_w3 (Ret 21000) status))
    agent_url sample_tx_hash (sample_receipt status).
Proof.
  exists (sample_w3 (Ret 21000) status), sample_account, sample_registry, 0,
    (sample_tx agent_url), (<["gas" := PInt 25200]> (sample_tx agent_url)),
    {| raw_transaction := key sample_account |}.
  split; [apply sample_built|].
  split; [apply (gas_buffered _ _ 21000 25200); reflexivity|].
  repeat split.
Defined.

Lemma hashing_submitted (status : pyval) (agent_url : string) :
  @submitted sample_libraries (ready_state (hashing_w3 status))
    agent_url varied_tx_hash (sample_receipt status).
Proof.
  exists (hashing_w3 status), sample_account, sample_registry, 0,
    (sample_tx agent_url), (<["gas" := PInt 25200]> (sample_tx agent_url)),
    {| raw_transaction := key sample_account |}.
  split.
  { constructor; try reflexivity.
    exists sample_registry. repeat split. discriminate. }
  split; [apply (gas_buffered _ _ 21000 25200); reflexivity|].
  repeat split.
Defined.

Lemma register_receipt_status_sample :
  let result status :=
    fst (@register sample_libraries "http://test.agent" false
           (ready_state (hashing_w3 status))) in
  result (PInt 1) = Ret (Some varied_tx_hash_text) /\
  result (PBool true) = Ret (Some varied_tx_hash_text) /\
  result (PFloat float_one) = Ret (Some varied_tx_hash_text) /\
  result (PInt 0) = Ret None /\
  result (PStr "0x1") = Ret None /\
  result PNone = Ret None.
Proof.
  cbv zeta.
  assert (Hat : forall status,
            (equals_one status ->
             fst (@register sample_libraries "http://test.agent" false
                    (ready_state (hashing_w3 status)))
             = Ret (Some varied_tx_hash_text)) /\
            (~ equals_one status ->
             fst (@register sample_libraries "http://test.agent" false
                    (ready_state (hashing_w3 status)))
             = Ret None)).
  { intros status.
    destruct (@register_receipt_status sample_libraries _ "http://test.agent"
                varied_tx_hash (sample_receipt status) status
                (hashing_submitted status _) eq_refl) as (Hone & Hother & _).
    split; [exact Hone|exact Hother]. }
  split; [|split; [|split; [|split; [|split]]]].
  - apply (proj1 (Hat (PInt 1))). reflexivity.
  - apply (proj1 (Hat (PBool true))). reflexivity.
  - apply (proj1 (Hat (PFloat float_one))). right. split; [lia|reflexivity].
  - apply (proj2 (Hat (PInt 0))). cbn [equals_one]. lia.
  - apply (proj2 (Hat (PStr "0x1"))). intros [].
  - apply (proj2 (Hat PNone)). intros [].
Defined.

(** C4. With [mock=False], [register] checks three preconditions, in this
    order: the chain client is connected, a wallet is loaded, a registry
    address is set.  The first that fails ends the call with [None]: its
    error line is the only one logged, whatever the later conditions are,
    and beyond the connection probe no call is made.  When all three hold
    the call goes straight on to the transaction build, which starts by
    check-summing the registry address and binding the contract. *)
Theorem register_preconditions_in_order `{!Libraries}
    (agent_url : string) (σ : state) :
  let result := register agent_url false σ in
  let log' := log (outside (snd result)) in
  let calls' := calls (outside (snd result)) in
  (connected (self σ) = Ret false ->
     fst result = Ret None /\
     log' = log (outside σ) ++ [(ERROR, "Cannot register: Web3 not connected.")] /\
     calls' = calls (outside σ) ++
              match _w3 (self σ) with Some _ => [CallIsConnected] | None => [] end) /\
  (connected (self σ) = Ret true -> _account (self σ) = None ->
     fst result = Ret None /\
     log' = log (outside σ) ++ [(ERROR, "Cannot register: No wallet loaded.")] /\
     calls' = calls (outside σ) ++ [CallIsConnected]) /\
  (connected (self σ) = Ret true -> is_Some (_account (self σ)) ->
   truthy_str (_registry_address (self σ)) = false ->
     fst result = Ret None /\
     log' = log (outside σ) ++
            [(ERROR, "Cannot register: AGENT_REGISTRY_ADDRESS not set.")] /\
     calls' = calls (outside σ) ++ [CallIsConnected]) /\
  (connected (self σ) = Ret true -> is_Some (_account (self σ)) ->
   forall registry, _registry_address (self σ) = Some registry -> registry <> "" ->
     match to_checksum_address registry with
     | Ret registry_address =>
         exists rest,
           calls' = calls (outside σ) ++
                    CallIsConnected :: CallContract registry_address :: rest
     | Raise e =>
         fst result = Ret None /\
         calls' = calls (outside σ) ++ [CallIsConnected] /\
         exists msg : string,
           log' = (log (outside σ) ++ [(ERROR, msg +:+ exn_msg e)])%list
     end).
Proof.
  cbv zeta. unfold connected, register. run.
  destruct (_w3 (self σ)) as [w3|] eqn:Hw3; run.
  2:{ split; [intros _; rewrite app_nil_r; repeat split|].
      repeat split; discriminate. }
  destruct (is_connected w3) as [[|]|e] eqn:Hc; run.
  3:{ repeat split; discriminate. }
  2:{ split; [intros _; repeat split|]. repeat split; discriminate. }
  split; [discriminate|].
  destruct (_account (self σ)) as [account|] eqn:Ha; run.
  2:{ split; [intros _ _; repeat split|].
      split; intros _ [a Hsome]; discriminate. }
  split; [discriminate|].
  split.
  - intros _ _ Hreg. rewrite Hreg. run. repeat split.
  - intros _ _ registry Hreg Hne.
    rewrite Hreg, (truthy_str_Some _ Hne). run. cbn [default from_option id].
    destruct (to_checksum_address registry) as [addr|e] eqn:Hck.
    + walk_bind w3 trace_raised; walk_gas w3;
        walk_submit w3 trace_raised trace_end trace_end; trace_end.
    + destruct (exn_cls e); run; repeat split; eexists; reflexivity.
Qed.

Lemma register_preconditions_in_order_sample :
  let offline := @register sample_libraries "http://test.agent" false
                   {| self := {| _w3 := Some offline_w3; _account := None;
                                 _registry_address := None |};
                      outside := empty_world |} in
  let no_wallet := @register sample_libraries "http://test.agent" false
                     no_wallet_state in
  let no_registry := @register sample_libraries "http://test.agent" false
                       no_registry_state in
  let ready := @register sample_libraries "http://test.agent" false
                 (ready_state (sample_w3 (Ret 21000) (PInt 1))) in
  (fst offline = Ret None /\
   log (outside (snd offline)) = [(ERROR, "Cannot register: Web3 not connected.")]) /\
  (fst no_wallet = Ret None /\
   log (outside (snd no_wallet)) = [(ERROR, "Cannot register: No wallet loaded.")]) /\
  (fst no_registry = Ret None /\
   log (outside (snd no_registry))
   = [(ERROR, "Cannot register: AGENT_REGISTRY_ADDRESS not set.")]) /\
  (exists rest,
     calls (outside (snd ready))
     = CallIsConnected :: CallContract sample_registry :: rest).
Proof.
  cbv zeta.
  pose proof (@register_preconditions_in_order sample_libraries "http://test.agent"
                {| self := {| _w3 := Some offline_w3; _account := None;
                              _registry_address := None |};
                   outside := empty_world |}) as (H1 & _).
  pose proof (@register_preconditions_in_order sample_libraries "http://test.agent"
                no_wallet_state) as (_ & H2 & _).
  pose proof (@register_preconditions_in_order sample_libraries "http://test.agent"
                no_registry_state) as (_ & _ & H3 & _).
  pose proof (@register_preconditions_in_order sample_libraries "http://test.agent"
                (ready_state (sample_w3 (Ret 21000) (PInt 1)))) as (_ & _ & _ & H4).
  destruct (H1 eq_refl) as (R1 & L1 & _).
  destruct (H2 eq_refl eq_refl) as (R2 & L2 & _).
  destruct (H3 eq_refl (ex_intro _ sample_account eq_refl) eq_refl) as (R3 & L3 & _).
  specialize (H4 eq_refl (ex_intro _ sample_account eq_refl) sample_registry eq_refl
                ltac:(discriminate)).
  repeat split; assumption.
Defined.

(** C7 (as amended).  When gas estimation succeeds with an estimate below
    [2 ^ 51], the transaction is signed with its gas limit set to the
    integer part of 1.2 times the estimate, [6 * estimate / 5], which is
    what the double-precision expression [int(gas_estimate * 1.2)] yields
    on that range.  When gas estimation fails, the transaction is signed
    as it was built, no gas value set by [register], and is then sent. *)
Theorem register_gas_margin `{!Libraries}
    (σ : state) (agent_url : string) (w3 : Web3) (account : LocalAccount)
    (registry_address : string) (nonce : Z) (tx : gmap string pyval) :
  built σ agent_url w3 account registry_address nonce tx ->
  let calls' := calls (outside (snd (register agent_url false σ))) in
  (forall g : Z, estimate_gas w3 tx = Ret g -> 0 <= g < 2 ^ 51 ->
     5 * (6 * g / 5) <= 6 * g < 5 * (6 * g / 5) + 5 /\
     exists rest,
       calls' = calls (outside σ)
                ++ build_calls agent_url account registry_address nonce
                ++ [CallEstimateGas tx;
                    CallSignTransaction (<["gas" := PInt (6 * g / 5)]> tx)
                      (key account)]
                ++ rest) /\
  (forall e : exn, estimate_gas w3 tx = Raise e ->
     exists rest,
       calls' = calls (outside σ)
                ++ build_calls agent_url account registry_address nonce
                ++ [CallEstimateGas tx; CallSignTransaction tx (key account)]
                ++ rest /\
       forall signed_tx, sign_transaction w3 tx (key account) = Ret signed_tx ->
         exists rest',
           rest = CallSendRawTransaction (raw_transaction signed_tx) :: rest').
Proof.
  intros [Hw3 Hc Ha (registry & Hr & Hne & Hck) Hct Hfn Hn Hb].
  unfold tx_params in Hb. cbv zeta.
  unfold register. run. rewrite Hw3. run. rewrite Hc. run. rewrite Ha. run.
  rewrite Hr, (truthy_str_Some _ Hne). run. cbn [default from_option id].
  rewrite Hck, Hct, Hfn, Hn, Hb. unfold build_calls, tx_params.
  split.
  - intros g Hg Hrange. split.
    { pose proof (Z.div_mod (6 * g) 5 ltac:(lia)).
      pose proof (Z.mod_pos_bound (6 * g) 5 ltac:(lia)). lia. }
    rewrite Hg, (gas_with_buffer_exact g Hrange).
    walk_submit w3 trace_raised trace_end trace_end; trace_end.
  - intros ex Hg. rewrite Hg.
    walk_submit w3 sent_raised sent sent; sent.
Qed.

Lemma register_gas_margin_sample :
  (exists rest,
     calls (outside (snd (@register sample_libraries "http://test.agent" false
                            (ready_state (sample_w3 (Ret 21000) (PInt 1))))))
     = [] ++ build_calls "http://test.agent" sample_account sample_registry 0
       ++ [CallEstimateGas (sample_tx "http://test.agent");
           CallSignTransaction
             (<["gas" := PInt 25200]> (sample_tx "http://test.agent"))
             (key sample_account)]
       ++ rest) /\
  (exists rest,
     calls (outside (snd (@register sample_libraries "http://test.agent" false
                            (ready_state (sample_w3 (Raise no_gas_accounting) (PInt 1))))))
     = [] ++ build_calls "http://test.agent" sample_account sample_registry 0
       ++ [CallEstimateGas (sample_tx "http://test.agent");
           CallSignTransaction (sample_tx "http://test.agent") (key sample_account)]
       ++ CallSendRawTransaction (key sample_account) :: rest).
Proof.
  split.
  - destruct (@register_gas_margin sample_libraries _ "http://test.agent" _ _ _ _ _
                (sample_built (Ret 21000) (PInt 1) "http://test.agent"))
      as [Hok _].
    destruct (Hok 21000 eq_refl ltac:(lia)) as [_ Hcalls]. exact Hcalls.
  - destruct (@register_gas_margin sample_libraries _ "http://test.agent" _ _ _ _ _
                (sample_built (Raise no_gas_accounting) (PInt 1) "http://test.agent"))
      as [_ Hfail].
    destruct (Hfail no_gas_accounting eq_refl) as (rest & Hcalls & Hsend).
    destruct (Hsend {| raw_transaction := key sample_account |} eq_refl)
      as (rest' & ->).
    exists rest'. exact Hcalls.
Defined.

(** C7, as first stated, fails for large estimates.  At 3752999689475414
    the double product rounds up past the next integer, and the gas limit
    signed is one more than the integer part of 1.2 times the estimate.
    At [2 ^ 1024] the estimate has no double at all: the conversion raises
    inside the estimation block, the warning of a failed estimation is
    logged, and the transaction is signed with no gas value set, although
    the estimation itself had succeeded. *)
Lemma register_gas_margin_inexact :
  let tx := sample_tx "http://test.agent" in
  (let g := 3752999689475414 in
   estimate_gas (sample_w3 (Ret g) (PInt 1)) tx = Ret g /\
   calls (outside (snd (@register sample_libraries "http://test.agent" false
                          (ready_state (sample_w3 (Ret g) (PInt 1))))))
   = build_calls "http://test.agent" sample_account sample_registry 0
     ++ [CallEstimateGas tx;
         CallSignTransaction (<["gas" := PInt 4503599627370497]> tx)
           (key sample_account);
         CallSendRawTransaction (key sample_account);
         CallWaitForTransactionReceipt sample_tx_hash] /\
   6 * g / 5 = 4503599627370496 /\
   4503599627370497 <> 6 * g / 5) /\
  (let g := 2 ^ 1024 in
   let result := @register sample_libraries "http://test.agent" false
                   (ready_state (sample_w3 (Ret g) (PInt 1))) in
   estimate_gas (sample_w3 (Ret g) (PInt 1)) tx = Ret g /\
   tx !! "gas" = None /\
   calls (outside (snd result))
   = build_calls "http://test.agent" sample_account sample_registry 0
     ++ [CallEstimateGas tx;
         CallSignTransaction tx (key sample_account);
         CallSendRawTransaction (key sample_account);
         CallWaitForTransactionReceipt sample_tx_hash] /\
   head (log (outside (snd result)))
   = Some (WARNING,
           "Gas estimation failed (might be expected for gasless): "
           +:+ "int too large to convert to float" +:+ ". Proceeding with default.")).
Proof.
  cbv zeta. split.
  - split; [reflexivity|]. split; [vm_compute; reflexivity|].
    split; [reflexivity|discriminate].
  - split; [reflexivity|]. split; [reflexivity|].
    split; vm_compute; reflexivity.
Qed.

(* ===================================================================== *)
(** ** Properties of [load_or_create_wallet] *)
(* ===================================================================== *)

(** C6. When the wallet password is absent (unset or empty),
    [load_or_create_wallet] returns [None], whatever else is configured,
    a raw private key included: the instance, the files and the entropy
    are untouched, no call is made, and one warning is logged. *)
Theorem load_without_password `{!Libraries} (σ : state) :
  truthy_str (environ (outside σ) !! "AGENT_WALLET_PASSWORD") = false ->
  let result := load_or_create_wallet σ in
  fst result = Ret None /\
  self (snd result) = self σ /\
  files (outside (snd result)) = files (outside σ) /\
  entropy (outside (snd result)) = entropy (outside σ) /\
  calls (outside (snd result)) = calls (outside σ) /\
  log (outside (snd result))
  = log (outside σ)
    ++ [(WARNING, "AGENT_WALLET_PASSWORD not set. Cannot manage wallet.")].
Proof.
  intros Hpw. cbv zeta. unfold load_or_create_wallet. run. rewrite Hpw. run.
  repeat split.
Qed.

Lemma load_without_password_sample :
  fst (@load_or_create_wallet sample_libraries
         (fresh_state (sample_world {["AGENT_PRIVATE_KEY" := "k1"]} ∅ ∅ [])))
  = Ret None.
Proof.
  apply (@load_without_password sample_libraries
           (fresh_state (sample_world {["AGENT_PRIVATE_KEY" := "k1"]} ∅ ∅ []))).
  reflexivity.
Defined.




(* ===================================================================== *)
(** ** The loaded identity *)
(* ===================================================================== *)

Section IdentityFacts.
Context `{!Libraries}.

(** [register] assigns no attribute of the instance. *)
Lemma register_self (agent_url : string) (mock : bool) (σ : state) :
  self (snd (register agent_url mock σ)) = self σ.
Proof.
  destruct mock; [rewrite register_mock_run; reflexivity|].
  unfold register. run.
  destruct (_w3 (self σ)) as [w3|]; run; [|reflexivity].
  destruct (is_connected w3) as [[|]|e]; run; [|reflexivity|reflexivity].
  destruct (_account (self σ)) as [account|]; run; [|reflexivity].
  destruct (truthy_str (_registry_address (self σ))); run; [|reflexivity].
  walk_build w3 same_raised; walk_gas w3;
    walk_submit w3 same_raised same same; same.
Qed.

(** After [load_or_create_wallet] the identity is the one held before or
    the one the resolution order yields. *)
Lemma load_account (σ : state) :
  let σ' := snd (load_or_create_wallet σ) in
  _w3 (self σ') = _w3 (self σ) /\
  _registry_address (self σ') = _registry_address (self σ) /\
  (_account (self σ') = _account (self σ) \/
   exists a, _account (self σ') = Some a /\ resolves (outside σ) a).
Proof.
  cbv zeta. unfold load_or_create_wallet. run.
  destruct (truthy_str (environ (outside σ) !! "AGENT_WALLET_PASSWORD")) eqn:Hpw;
    run; [|repeat split; left; reflexivity].
  apply truthy_str_true in Hpw as (password & Hpw & Hne). rewrite Hpw.
  cbn [default from_option id].
  destruct (truthy_str (environ (outside σ) !! "AGENT_PRIVATE_KEY")) eqn:Hpk; run.
  { apply truthy_str_true in Hpk as (pk & Hpk & Hpkne). rewrite Hpk.
    cbn [default from_option id].
    destruct (Account_from_key (KeyStr pk)) as [a|e] eqn:Ha; run;
      (split; [reflexivity|split; [reflexivity|]]); [right|left; reflexivity].
    exists a. split; [reflexivity|]. eapply resolves_private_key; eassumption. }
  pose proof (eq_refl : keystore_file_of (outside σ)
                        = Path (default DEFAULT_KEYSTORE_PATH
                                  (environ (outside σ) !! "AGENT_KEYSTORE_PATH")))
    as Hpath.
  set (path := Path (default DEFAULT_KEYSTORE_PATH
                       (environ (outside σ) !! "AGENT_KEYSTORE_PATH"))) in *.
  destruct (files (outside σ) !! path) as [[content| |strerror]|] eqn:Hf; run.
  - destruct (decide (path ∈ denied (outside σ))) as [Hd|Hd].
    { rewrite bool_decide_eq_true_2 by exact Hd. run.
      repeat split; left; reflexivity. }
    rewrite bool_decide_eq_false_2 by exact Hd. run. rewrite Hf.
    destruct (Account_decrypt content password) as [k|e] eqn:Hk;
      [|run; repeat split; left; reflexivity].
    destruct (Account_from_key (KeyBytes k)) as [a|e] eqn:Ha; run;
      (split; [reflexivity|split; [reflexivity|]]); [right|left; reflexivity].
    exists a. split; [reflexivity|].
    eapply resolves_keystore; rewrite ?Hpath; eassumption.
  - destruct (bool_decide (path ∈ denied (outside σ))); run; rewrite ?Hf; run;
      repeat split; left; reflexivity.
  - repeat split; left; reflexivity.
  - rename Hf into Hnone.
    destruct (entropy (outside σ)) as [|a rest] eqn:Hent; run;
      [repeat split; left; reflexivity|].
    assert (Hres : resolves (outside σ) a)
      by (eapply resolves_created; rewrite ?Hpath; eassumption).
    destruct (Account_encrypt (key a) password) as [ks|e]; run;
      [|repeat split; right; exists a; split; [reflexivity|exact Hres]].
    destruct (decide (path ∈ denied (outside σ))) as [Hd|Hd].
    { rewrite bool_decide_eq_true_2 by exact Hd. run.
      repeat split; right; exists a; split; [reflexivity|exact Hres]. }
    rewrite bool_decide_eq_false_2 by exact Hd. run. rewrite Hnone. run.
    repeat split; right; exists a; split; [reflexivity|exact Hres].
Qed.
(** A configured private key decides the call. *)
Lemma load_from_private_key (σ : state) (password pk : string) (a : LocalAccount) :
  environ (outside σ) !! "AGENT_WALLET_PASSWORD" = Some password -> password <> "" ->
  environ (outside σ) !! "AGENT_PRIVATE_KEY" = Some pk -> pk <> "" ->
  Account_from_key (KeyStr pk) = Ret a ->
  fst (load_or_create_wallet σ) = Ret (Some (address a)) /\
  _account (self (snd (load_or_create_wallet σ))) = Some a.
Proof.
  intros Hpw Hne Hpk Hpkne Ha. unfold load_or_create_wallet. run.
  rewrite Hpw, (truthy_str_Some _ Hne). run.
  rewrite Hpk, (truthy_str_Some _ Hpkne). run. cbn [default from_option id].
  rewrite Ha. run. split; reflexivity.
Qed.

(** Without a private key, a keystore that decrypts decides the call. *)
Lemma load_from_keystore (σ : state) (password content : string)
    (k : list byte) (a : LocalAccount) :
  environ (outside σ) !! "AGENT_WALLET_PASSWORD" = Some password -> password <> "" ->
  truthy_str (environ (outside σ) !! "AGENT_PRIVATE_KEY") = false ->
  files (outside σ) !! keystore_file_of (outside σ) = Some (RegularFile content) ->
  keystore_file_of (outside σ) ∉ denied (outside σ) ->
  Account_decrypt content password = Ret k ->
  Account_from_key (KeyBytes k) = Ret a ->
  fst (load_or_create_wallet σ) = Ret (Some (address a)) /\
  _account (self (snd (load_or_create_wallet σ))) = Some a.
Proof.
  intros Hpw Hne Hpk Hf Hd Hk Ha. unfold keystore_file_of in *.
  unfold load_or_create_wallet. run.
  rewrite Hpw, (truthy_str_Some _ Hne). run. rewrite Hpk. run.
  cbn [default from_option id].
  rewrite Hf. run.
  rewrite bool_decide_eq_false_2 by exact Hd. run. rewrite Hf, Hk, Ha. run.
  split; reflexivity.
Qed.

(** A successful call: which priority decided, and what it left behind. *)
Lemma load_success (σ : state) (h : string) :
  fst (load_or_create_wallet σ) = Ret (Some h) ->
  let σ' := snd (load_or_create_wallet σ) in
  let path := keystore_file_of (outside σ) in
  exists password a,
    environ (outside σ) !! "AGENT_WALLET_PASSWORD" = Some password /\
    password <> "" /\
    _account (self σ') = Some a /\ address a = h /\
    environ (outside σ') = environ (outside σ) /\
    denied (outside σ') = denied (outside σ) /\
    ((exists pk,
        environ (outside σ) !! "AGENT_PRIVATE_KEY" = Some pk /\ pk <> "" /\
        Account_from_key (KeyStr pk) = Ret a /\
        files (outside σ') = files (outside σ)) \/
     (truthy_str (environ (outside σ) !! "AGENT_PRIVATE_KEY") = false /\
      exists content k,
        files (outside σ) !! path = Some (RegularFile content) /\
        (path ∉ denied (outside σ)) /\
        Account_decrypt content password = Ret k /\
        Account_from_key (KeyBytes k) = Ret a /\
        files (outside σ') = files (outside σ)) \/
     (truthy_str (environ (outside σ) !! "AGENT_PRIVATE_KEY") = false /\
      files (outside σ) !! path = None /\
      (path ∉ denied (outside σ)) /\
      exists rest keystore,
        entropy (outside σ) = a :: rest /\
        Account_encrypt (key a) password = Ret keystore /\
        files (outside σ')
        = <[path := RegularFile (json_dumps keystore)]> (files (outside σ)))).
Proof.
  cbv zeta. unfold keystore_file_of, load_or_create_wallet. run.
  destruct (truthy_str (environ (outside σ) !! "AGENT_WALLET_PASSWORD")) eqn:Hpw;
    run; [|discriminate].
  apply truthy_str_true in Hpw as (password & Hpw & Hne). rewrite Hpw.
  cbn [default from_option id].
  destruct (truthy_str (environ (outside σ) !! "AGENT_PRIVATE_KEY")) eqn:Hpk; run.
  { apply truthy_str_true in Hpk as (pk & Hpk & Hpkne). rewrite Hpk.
    cbn [default from_option id].
    destruct (Account_from_key (KeyStr pk)) as [a|e] eqn:Ha; run; [|discriminate].
    intros [= <-]. exists password, a.
  do 6 (split; [assumption || reflexivity|]).
    left. exists pk. repeat split; assumption || reflexivity. }
  set (path := Path (default DEFAULT_KEYSTORE_PATH
                       (environ (outside σ) !! "AGENT_KEYSTORE_PATH"))) in *.
  destruct (files (outside σ) !! path) as [[content| |strerror]|] eqn:Hf; run.
  - destruct (decide (path ∈ denied (outside σ))) as [Hd|Hd].
    { rewrite bool_decide_eq_true_2 by exact Hd. run. discriminate. }
    rewrite bool_decide_eq_false_2 by exact Hd. run. rewrite Hf.
    destruct (Account_decrypt content password) as [k|e] eqn:Hk;
      [|run; discriminate].
    destruct (Account_from_key (KeyBytes k)) as [a|e] eqn:Ha; run; [|discriminate].
    intros [= <-]. exists password, a.
  do 6 (split; [assumption || reflexivity|]).
    right. left. split; [reflexivity|]. exists content, k. repeat split; assumption || reflexivity.
  - destruct (bool_decide (path ∈ denied (outside σ))); run; rewrite ?Hf; run;
      discriminate.
  - discriminate.
  - destruct (entropy (outside σ)) as [|a rest] eqn:Hent; run; [discriminate|].
    destruct (Account_encrypt (key a) password) as [ks|e] eqn:Hks; run;
      [|discriminate].
    destruct (decide (path ∈ denied (outside σ))) as [Hd|Hd].
    { rewrite bool_decide_eq_true_2 by exact Hd. run. discriminate. }
    rewrite bool_decide_eq_false_2 by exact Hd. run. rewrite Hf. run.
    intros [= <-]. exists password, a.
  do 6 (split; [assumption || reflexivity|]).
    right. right. split; [reflexivity|]. split; [reflexivity|]. split; [exact Hd|].
    exists rest, ks. repeat split; assumption || reflexivity.
Qed.
End IdentityFacts.

(** C9, as first stated, fails: a later call of [load_or_create_wallet]
    does replace the identity the instance holds.  The method has no guard
    for an identity already loaded and resolves it anew on every call:
    after a successful load from a raw private key, a call made once the
    configured key has changed succeeds as well and loads the new key's
    account in place of the first. *)
Lemma identity_replaced_by_second_load :
  let σ0 := fresh_state (private_key_world "k1") in
  let first := @load_or_create_wallet sample_libraries σ0 in
  let σ1 := setenv "AGENT_PRIVATE_KEY" "k2" (snd first) in
  let second := @load_or_create_wallet sample_libraries σ1 in
  fst first = Ret (Some (address sample_account)) /\
  _account (self (snd first)) = Some sample_account /\
  fst second = Ret (Some (address other_account)) /\
  _account (self (snd second)) = Some other_account /\
  sample_account <> other_account.
Proof.
  cbv zeta. repeat split; try (vm_compute; reflexivity). discriminate.
Qed.

(** C9 (as amended).  An instance holds at most one identity at a time (a
    single optional attribute).  Once a call of [load_or_create_wallet]
    has succeeded, the identity it loaded is the one the resolution order
    yields; [register], mock or not, assigns no attribute of the
    instance; and every later call of [load_or_create_wallet] made under
    the same configuration and the same files succeeds again and loads
    the same identity, given that a keystore decrypts to the key it was
    made from and that a generated account is the account of its key.
    In any state whatever, a call leaves the instance with the identity
    it held or with the one the resolution order yields there. *)
Theorem identity_stable_under_same_configuration `{!Libraries}
    (σ : state) (h : string) :
  (forall password k keystore,
     environ (outside σ) !! "AGENT_WALLET_PASSWORD" = Some password ->
     Account_encrypt k password = Ret keystore ->
     Account_decrypt (json_dumps keystore) password = Ret k) ->
  (forall a, a ∈ entropy (outside σ) ->
     Account_from_key (KeyBytes (key a)) = Ret a) ->
  fst (load_or_create_wallet σ) = Ret (Some h) ->
  let σ1 := snd (load_or_create_wallet σ) in
  (exists a,
     _account (self σ1) = Some a /\ address a = h /\ resolves (outside σ) a) /\
  (forall (agent_url : string) (mock : bool),
     self (snd (register agent_url mock σ1)) = self σ1) /\
  (forall σ2, same_configuration σ1 σ2 ->
     fst (load_or_create_wallet σ2) = Ret (Some h) /\
     _account (self (snd (load_or_create_wallet σ2))) = _account (self σ1)) /\
  (forall σ2,
     let σ3 := snd (load_or_create_wallet σ2) in
     _account (self σ3) = _account (self σ2) \/
     exists a, _account (self σ3) = Some a /\ resolves (outside σ2) a).
Proof.
  intros Hround Hcreated Hok. cbv zeta.
  destruct (load_success σ h Hok)
    as (password & a & Hpw & Hne & Ha & Hh & Henv & Hden & Hcase).
  split; [|split; [|split]]; [| | |intros σ2; apply (load_account σ2)].
  - exists a. split; [exact Ha|]. split; [exact Hh|].
    destruct Hcase as [(pk & Hpk & Hpkne & Hkey & _)
                      | [(Hpk & content & k & Hf & Hd & Hk & Hkey & _)
                        | (Hpk & Hf & Hd & rest & ks & Hent & _)]].
    + eapply resolves_private_key; eassumption.
    + eapply resolves_keystore; eassumption.
    + eapply resolves_created; eassumption.
  - intros agent_url mock. apply register_self.
  - intros σ2 (Hself & Henv2 & Hfiles2 & Hden2). rewrite Ha, <- Hh.
    assert (Hpath : keystore_file_of (outside σ2) = keystore_file_of (outside σ))
      by (unfold keystore_file_of; rewrite Henv2, Henv; reflexivity).
    destruct Hcase as [(pk & Hpk & Hpkne & Hkey & _)
                      | [(Hpk & content & k & Hf & Hd & Hk & Hkey & Hfiles)
                        | (Hpk & Hf & Hd & rest & ks & Hent & Hks & Hfiles)]].
    + apply (load_from_private_key σ2 password pk a);
        rewrite ?Henv2, ?Henv; assumption.
    + apply (load_from_keystore σ2 password content k a);
        rewrite ?Hpath, ?Henv2, ?Henv, ?Hfiles2, ?Hfiles, ?Hden2, ?Hden;
        assumption.
    + apply (load_from_keystore σ2 password (json_dumps ks) (key a) a);
        rewrite ?Hpath, ?Henv2, ?Henv, ?Hfiles2, ?Hfiles, ?Hden2, ?Hden;
        try assumption.
      * apply lookup_insert_eq.
      * apply (Hround _ _ _ Hpw Hks).
      * apply Hcreated. rewrite Hent. apply list_elem_of_here.
Qed.

Lemma sample_keystore_roundtrip (password : string) (k : list byte) (keystore : pyval) :
  environ first_run_world !! "AGENT_WALLET_PASSWORD" = Some password ->
  @Account_encrypt sample_libraries k password = Ret keystore ->
  @Account_decrypt sample_libraries (@json_dumps sample_libraries keystore) password
  = Ret k.
Proof.
  intros [= <-] [= <-]. cbn [Account_decrypt json_dumps sample_libraries].
  change (String.eqb "pw" "wrong") with false. cbv iota.
  rewrite list_byte_of_string_of_list_byte. reflexivity.
Qed.

Lemma sample_created_keys (a : LocalAccount) :
  a ∈ entropy first_run_world ->
  @Account_from_key sample_libraries (KeyBytes (key a)) = Ret a.
Proof.
  intros Ha. apply list_elem_of_singleton in Ha as ->. reflexivity.
Qed.

Lemma identity_stable_sample :
  let σ1 := snd (@load_or_create_wallet sample_libraries (fresh_state first_run_world)) in
  fst (@load_or_create_wallet sample_libraries σ1) = Ret (Some "0xAddressOf:k1") /\
  _account (self (snd (@load_or_create_wallet sample_libraries σ1)))
  = Some sample_account.
Proof.
  cbv zeta.
  destruct (@identity_stable_under_same_configuration sample_libraries
              (fresh_state first_run_world) "0xAddressOf:k1"
              sample_keystore_roundtrip sample_created_keys eq_refl)
    as (_ & _ & Hagain & _).
  apply (Hagain _ (conj eq_refl (conj eq_refl (conj eq_refl eq_refl)))).
Defined.

(* ===================================================================== *)
(** ** Properties of the mock endpoint *)
(* ===================================================================== *)

Lemma py_eq_str_not (v : pyval) (s : string) : v <> PStr s -> py_eq_str v s = false.
Proof.
  intros Hv. destruct v as [ | | | | t | | | ]; try reflexivity.
  cbn [py_eq_str]. apply String.eqb_neq. congruence.
Qed.

(** What a receipt query is answered with, according to its first
    parameter. *)
Lemma handle_rpc_receipt (d : gmap string pyval) (l : list rpc_log) (params : pyval) :
  d !! "method" = Some (PStr "eth_getTransactionReceipt") ->
  default (PList []) (d !! "params") = params ->
  (truthy params = false \/
   exists first, py_getitem0 params = Ret first /\ first <> PStr MOCK_TX_HASH) ->
  handle_rpc (Ret (PDict d)) l
  = (Ret (Plain (rpc_envelope (default PNone (d !! "id")) PNone)),
     l ++ [LogRequest (PStr "eth_getTransactionReceipt") params]).
Proof.
  intros Hm Hp Hcase. run_rpc. rewrite Hm, Hp. run_rpc.
  change (py_eq_str (PStr "eth_getTransactionReceipt") "eth_chainId") with false.
  change (py_eq_str (PStr "eth_getTransactionReceipt") "net_version") with false.
  change (py_eq_str (PStr "eth_getTransactionReceipt") "eth_getTransactionCount")
    with false.
  change (py_eq_str (PStr "eth_getTransactionReceipt") "eth_gasPrice") with false.
  change (py_eq_str (PStr "eth_getTransactionReceipt") "eth_estimateGas") with false.
  change (py_eq_str (PStr "eth_getTransactionReceipt") "eth_maxPriorityFeePerGas")
    with false.
  change (py_eq_str (PStr "eth_getTransactionReceipt") "eth_getBlockByNumber")
    with false.
  change (py_eq_str (PStr "eth_getTransactionReceipt") "eth_sendRawTransaction")
    with false.
  change (py_eq_str (PStr "eth_getTransactionReceipt") "eth_getTransactionReceipt")
    with true.
  cbv iota.
  destruct Hcase as [Hfalse | (first & Hfirst & Hne)].
  - rewrite Hfalse. reflexivity.
  - destruct (truthy params); [|reflexivity].
    rewrite Hfirst, (py_eq_str_not _ _ Hne). reflexivity.
Qed.

(** The envelope of a served request is an object that carries the
    version, the identifier of the request and the result, and no error. *)
Lemma rpc_envelope_fields (req_id result : pyval) :
  exists body : gmap string pyval,
    rpc_envelope req_id result = PDict body /\
    body !! "jsonrpc" = Some (PStr "2.0") /\
    body !! "id" = Some req_id /\
    body !! "result" = Some result /\
    body !! "error" = None.
Proof. eexists. split; [reflexivity|]. repeat split. Qed.

Lemma serves_envelope (d : gmap string pyval) (result : pyval) :
  serves (Ret (Plain (rpc_envelope (default PNone (d !! "id")) result))) d result.
Proof.
  destruct (rpc_envelope_fields (default PNone (d !! "id")) result)
    as (body & -> & Hfields).
  exists body. split; [reflexivity|exact Hfields].
Qed.

(** C8. The mock handler answers [eth_sendRawTransaction] with the fixed
    hash, "0x" followed by 64 letters a, whatever the payload;
    it answers [eth_getTransactionReceipt] with a receipt of success
    status when the first parameter is that hash, and with a null result
    when the first parameter is anything else.  The answer is the
    envelope object the handler returns, whose [result] member holds the
    hash, the receipt or the null. *)
Theorem mock_rpc_send_and_receipt (d : gmap string pyval) (l : list rpc_log) :
  let answer := fst (handle_rpc (Ret (PDict d)) l) in
  (d !! "method" = Some (PStr "eth_sendRawTransaction") ->
     serves answer d (PStr MOCK_TX_HASH)) /\
  (d !! "method" = Some (PStr "eth_getTransactionReceipt") ->
   forall first rest, d !! "params" = Some (PList (first :: rest)) ->
     (first = PStr MOCK_TX_HASH -> serves answer d (PDict mock_receipt)) /\
     (first <> PStr MOCK_TX_HASH -> serves answer d PNone)) /\
  MOCK_TX_HASH = mock_tx_hash_text /\
  mock_receipt !! "status" = Some (PStr "0x1") /\
  mock_receipt !! "transactionHash" = Some (PStr MOCK_TX_HASH).
Proof.
  cbv zeta. split; [|split; [|repeat split]].
  - intros Hm.
    replace (fst (handle_rpc (Ret (PDict d)) l))
      with (Ret (Plain (rpc_envelope (default PNone (d !! "id"))
                          (PStr MOCK_TX_HASH))) : outcome returned)
      by (run_rpc; rewrite Hm; reflexivity).
    apply serves_envelope.
  - intros Hm first rest Hp. split.
    + intros ->.
      replace (fst (handle_rpc (Ret (PDict d)) l))
        with (Ret (Plain (rpc_envelope (default PNone (d !! "id"))
                            (PDict mock_receipt))) : outcome returned)
        by (run_rpc; rewrite Hm, Hp; reflexivity).
      apply serves_envelope.
    + intros Hne.
      rewrite (handle_rpc_receipt d l (PList (first :: rest)) Hm);
        [apply serves_envelope|rewrite Hp; reflexivity|].
      right. exists first. split; [reflexivity|exact Hne].
Qed.

Lemma mock_rpc_send_and_receipt_sample :
  serves (fst (handle_rpc (Ret (PDict (rpc_request "eth_sendRawTransaction"
                                         (Some (PList [PStr "0x02f86b"])) (PInt 1)))) []))
    (rpc_request "eth_sendRawTransaction" (Some (PList [PStr "0x02f86b"])) (PInt 1))
    (PStr mock_tx_hash_text) /\
  serves (fst (handle_rpc (Ret (PDict (rpc_request "eth_getTransactionReceipt"
                                         (Some (PList [PStr MOCK_TX_HASH])) (PInt 2)))) []))
    (rpc_request "eth_getTransactionReceipt" (Some (PList [PStr MOCK_TX_HASH])) (PInt 2))
    (PDict mock_receipt) /\
  serves (fst (handle_rpc (Ret (PDict (rpc_request "eth_getTransactionReceipt"
                                         (Some (PList [PStr MOCK_BLOCK_HASH])) (PInt 3)))) []))
    (rpc_request "eth_getTransactionReceipt" (Some (PList [PStr MOCK_BLOCK_HASH])) (PInt 3))
    PNone.
Proof.
  split; [|split].
  - apply (proj1 (mock_rpc_send_and_receipt
                    (rpc_request "eth_sendRawTransaction"
                       (Some (PList [PStr "0x02f86b"])) (PInt 1)) [])).
    reflexivity.
  - destruct (mock_rpc_send_and_receipt
                (rpc_request "eth_getTransactionReceipt"
                   (Some (PList [PStr MOCK_TX_HASH])) (PInt 2)) [])
      as (_ & Hreceipt & _).
    apply (proj1 (Hreceipt eq_refl (PStr MOCK_TX_HASH) [] eq_refl)). reflexivity.
  - destruct (mock_rpc_send_and_receipt
                (rpc_request "eth_getTransactionReceipt"
                   (Some (PList [PStr MOCK_BLOCK_HASH])) (PInt 3)) [])
      as (_ & Hreceipt & _).
    apply (proj2 (Hreceipt eq_refl (PStr MOCK_BLOCK_HASH) [] eq_refl)).
    discriminate.
Defined.

(** C10. A receipt query whose [params] field is absent, is an empty
    list, or is a list whose first element is not the fixed hash is served
    normally: the handler returns a JSON-RPC success envelope (a plain
    object, not an error response) with a null result and no error
    member, and logs the request only; the guarded access to the first
    parameter raises nothing. *)
Theorem mock_rpc_receipt_guard (d : gmap string pyval) (l : list rpc_log) :
  d !! "method" = Some (PStr "eth_getTransactionReceipt") ->
  (d !! "params" = None \/
   d !! "params" = Some (PList []) \/
   exists first rest,
     d !! "params" = Some (PList (first :: rest)) /\ first <> PStr MOCK_TX_HASH) ->
  handle_rpc (Ret (PDict d)) l
  = (Ret (Plain (rpc_envelope (default PNone (d !! "id")) PNone)),
     l ++ [LogRequest (PStr "eth_getTransactionReceipt")
             (default (PList []) (d !! "params"))]) /\
  exists body : gmap string pyval,
    rpc_envelope (default PNone (d !! "id")) PNone = PDict body /\
    body !! "jsonrpc" = Some (PStr "2.0") /\
    body !! "id" = Some (default PNone (d !! "id")) /\
    body !! "result" = Some PNone /\
    body !! "error" = None.
Proof.
  intros Hm Hcase. split.
  - apply (handle_rpc_receipt d l _ Hm eq_refl).
    destruct Hcase as [-> | [-> | (first & rest & -> & Hne)]].
    + left. reflexivity.
    + left. reflexivity.
    + right. exists first. split; [reflexivity|exact Hne].
  - apply rpc_envelope_fields.
Qed.

Lemma mock_rpc_receipt_guard_sample :
  let served id := (Ret (Plain (rpc_envelope id PNone)) : outcome returned) in
  fst (handle_rpc (Ret (PDict (rpc_request "eth_getTransactionReceipt" None (PInt 1)))) [])
  = served (PInt 1) /\
  fst (handle_rpc (Ret (PDict (rpc_request "eth_getTransactionReceipt"
                                 (Some (PList [])) (PInt 2)))) [])
  = served (PInt 2) /\
  fst (handle_rpc (Ret (PDict (rpc_request "eth_getTransactionReceipt"
                                 (Some (PList [PInt 7; PStr MOCK_TX_HASH])) (PInt 3)))) [])
  = served (PInt 3).
Proof.
  cbv zeta. split; [|split].
  - destruct (mock_rpc_receipt_guard
                (rpc_request "eth_getTransactionReceipt" None (PInt 1)) []
                eq_refl (or_introl eq_refl)) as [Hrun _].
    rewrite Hrun. reflexivity.
  - destruct (mock_rpc_receipt_guard
                (rpc_request "eth_getTransactionReceipt" (Some (PList [])) (PInt 2)) []
                eq_refl (or_intror (or_introl eq_refl))) as [Hrun _].
    rewrite Hrun. reflexivity.
  - destruct (mock_rpc_receipt_guard
                (rpc_request "eth_getTransactionReceipt"
                   (Some (PList [PInt 7; PStr MOCK_TX_HASH])) (PInt 3)) []
                eq_refl) as [Hrun _].
    { right. right. exists (PInt 7), [PStr MOCK_TX_HASH].
      split; [reflexivity|discriminate]. }
    rewrite Hrun. reflexivity.
Defined.

(* ===================================================================== *)
(** ** Further properties of the registrar *)
(* ===================================================================== *)

(** The calls made are the calls before, followed by a list to be named. *)
Ltac added_calls :=
  first [reflexivity
        |rewrite <- !app_assoc; reflexivity
        |symmetry; apply app_nil_r].



Ltac spent :=
  first [left; reflexivity
        |right; eexists; split; [reflexivity|split; [reflexivity|first [assumption|reflexivity]]]].
(** The lines a load logged: those before the last, and the last. *)
Ltac noted :=
  rewrite <- ?app_assoc; cbn [app];
  first [exists []; eexists; split; [reflexivity|]
        |eexists [_]; eexists; split; [reflexivity|]
        |eexists [_; _]; eexists; split; [reflexivity|]];
  (split; [once repeat constructor; discriminate|]);
  first [reflexivity|left; reflexivity|right; split; reflexivity].
Ltac read_shape :=
  eexists; split; [added_calls|]; right; right; left; split; reflexivity.
(** What a load leaves of the world, and what it drew. *)
Ltac framed := do 4 (split; [reflexivity|]); (split; [spent|]).
(** A load that returned: its value and its verdict in the log. *)
Ltac returned :=
  split;
  [right; split;
   [first [left; reflexivity|right; eexists; split; reflexivity]|noted]|].

Section LoadFacts.
Context `{!Libraries}.

(** One pass over every path of [load_or_create_wallet]: the result, the
    log, the file calls made and what became of the file system.  The
    method raises only where the existence test of the keystore path
    does. *)
Lemma load_runs (σ : state) :
  let result := load_or_create_wallet σ in
  let σ' := snd result in
  let path := keystore_file_of (outside σ) in
  environ (outside σ') = environ (outside σ) /\
  denied (outside σ') = denied (outside σ) /\
  _w3 (self σ') = _w3 (self σ) /\
  _registry_address (self σ') = _registry_address (self σ) /\
  (entropy (outside σ') = entropy (outside σ) \/
   exists a, entropy (outside σ) = a :: entropy (outside σ') /\
             _account (self σ') = Some a /\
             files (outside σ) !! path = None) /\
  ((exists e,
      fst result = Raise e /\
      fs_exists (outside σ) path = Raise e /\
      truthy_str (environ (outside σ) !! "AGENT_WALLET_PASSWORD") = true /\
      truthy_str (environ (outside σ) !! "AGENT_PRIVATE_KEY") = false /\
      _account (self σ') = _account (self σ) /\
      log (outside σ') = log (outside σ)) \/
   ((fst result = Ret None \/
     exists a, fst result = Ret (Some (address a)) /\ _account (self σ') = Some a) /\
    exists quiet line,
      log (outside σ') = log (outside σ) ++ quiet ++ [line] /\
      Forall (fun l : level * string => fst l <> ERROR) quiet /\
      match fst result with
      | Ret (Some _) => fst line = INFO
      | Ret None =>
          fst line = ERROR \/
          (line = (WARNING, "AGENT_WALLET_PASSWORD not set. Cannot manage wallet.") /\
           truthy_str (environ (outside σ) !! "AGENT_WALLET_PASSWORD") = false)
      | Raise _ => False
      end)) /\
  exists added,
    calls (outside σ') = calls (outside σ) ++ added /\
    ((added = [] /\ files (outside σ') = files (outside σ)) \/
     (added = [CallPathExists path] /\ files (outside σ') = files (outside σ)) \/
     (added = [CallPathExists path; CallOpenRead path] /\
      files (outside σ') = files (outside σ)) \/
     (exists content,
        added = [CallPathExists path; CallOpenWrite path content] /\
        files (outside σ) !! path = None /\
        (files (outside σ') = files (outside σ) \/
         files (outside σ') = <[path := RegularFile content]> (files (outside σ))))).
Proof.
  cbv zeta. unfold keystore_file_of, load_or_create_wallet. run.
  destruct (truthy_str (environ (outside σ) !! "AGENT_WALLET_PASSWORD")); run.
  2:{ framed. returned. exists []. split; [added_calls|]. left. split; reflexivity. }
  destruct (truthy_str (environ (outside σ) !! "AGENT_PRIVATE_KEY")); run.
  { destruct (Account_from_key (KeyStr _)) as [a|e]; run;
      framed; returned; exists []; (split; [added_calls|]); left; split; reflexivity. }
  set (path := Path (default DEFAULT_KEYSTORE_PATH
                       (environ (outside σ) !! "AGENT_KEYSTORE_PATH"))) in *.
  destruct (files (outside σ) !! path) as [[content| |strerror]|] eqn:Hf; run.
  - destruct (bool_decide (path ∈ denied (outside σ))); run;
      [framed; returned; read_shape|].
    rewrite Hf.
    destruct (Account_decrypt content _) as [k|e];
      [|run; framed; returned; read_shape].
    destruct (Account_from_key (KeyBytes k)) as [a|e]; run;
      framed; returned; read_shape.
  - destruct (bool_decide (path ∈ denied (outside σ))); run; rewrite ?Hf; run;
      framed; returned; read_shape.
  - framed. split.
    { left. eexists. do 5 (split; [reflexivity|]). reflexivity. }
    eexists. split; [added_calls|]. right. left. split; reflexivity.
  - destruct (entropy (outside σ)) as [|a rest]; run.
    { framed. returned. eexists. split; [added_calls|].
      right. left. split; reflexivity. }
    destruct (Account_encrypt (key a) _) as [ks|e]; run.
    2:{ framed. returned. eexists. split; [added_calls|].
        right. left. split; reflexivity. }
    destruct (bool_decide (path ∈ denied (outside σ))); run; rewrite ?Hf; run;
      framed; returned; (eexists; split; [added_calls|]); right; right; right;
      eexists; (split; [reflexivity|]); (split; [reflexivity|]);
      first [left; reflexivity|right; reflexivity].
Qed.

(** What a load that reads the private key or the keystore leaves alone. *)
Lemma load_private_key_world (σ : state) (password pk : string) (a : LocalAccount) :
  environ (outside σ) !! "AGENT_WALLET_PASSWORD" = Some password -> password <> "" ->
  environ (outside σ) !! "AGENT_PRIVATE_KEY" = Some pk -> pk <> "" ->
  Account_from_key (KeyStr pk) = Ret a ->
  files (outside (snd (load_or_create_wallet σ))) = files (outside σ) /\
  entropy (outside (snd (load_or_create_wallet σ))) = entropy (outside σ).
Proof.
  intros Hpw Hne Hpk Hpkne Ha. unfold load_or_create_wallet. run.
  rewrite Hpw, (truthy_str_Some _ Hne). run.
  rewrite Hpk, (truthy_str_Some _ Hpkne). run. cbn [default from_option id].
  rewrite Ha. run. split; reflexivity.
Qed.

Lemma load_keystore_world (σ : state) (password content : string)
    (k : list byte) (a : LocalAccount) :
  environ (outside σ) !! "AGENT_WALLET_PASSWORD" = Some password -> password <> "" ->
  truthy_str (environ (outside σ) !! "AGENT_PRIVATE_KEY") = false ->
  files (outside σ) !! keystore_file_of (outside σ) = Some (RegularFile content) ->
  keystore_file_of (outside σ) ∉ denied (outside σ) ->
  Account_decrypt content password = Ret k ->
  Account_from_key (KeyBytes k) = Ret a ->
  files (outside (snd (load_or_create_wallet σ))) = files (outside σ) /\
  entropy (outside (snd (load_or_create_wallet σ))) = entropy (outside σ).
Proof.
  intros Hpw Hne Hpk Hf Hd Hk Ha. unfold keystore_file_of in *.
  unfold load_or_create_wallet. run.
  rewrite Hpw, (truthy_str_Some _ Hne). run. rewrite Hpk. run.
  cbn [default from_option id].
  rewrite Hf. run.
  rewrite bool_decide_eq_false_2 by exact Hd. run. rewrite Hf, Hk, Ha. run.
  split; reflexivity.
Qed.
End LoadFacts.

(** X2. [load_or_create_wallet] raises only what the existence test of the
    keystore path raises, the one step it takes outside any [try]: with a
    password and no private key configured, the operating system's
    refusal to examine the path reaches the caller, the identity and the
    log left as they were.  Where the test answers, or is not reached, the
    method returns [None] or the address of an account that is then the
    identity of the instance.  Whatever the outcome, the chain client and
    the registry address of the instance, the environment and the access
    rights are as before. *)
Theorem load_raises_only_at_existence_test `{!Libraries} (σ : state) :
  let result := load_or_create_wallet σ in
  let σ' := snd result in
  let path := keystore_file_of (outside σ) in
  let reached :=
    truthy_str (environ (outside σ) !! "AGENT_WALLET_PASSWORD") = true /\
    truthy_str (environ (outside σ) !! "AGENT_PRIVATE_KEY") = false in
  (forall e, fst result = Raise e ->
     reached /\ fs_exists (outside σ) path = Raise e /\
     _account (self σ') = _account (self σ) /\
     log (outside σ') = log (outside σ)) /\
  (forall e, reached -> fs_exists (outside σ) path = Raise e ->
     fst result = Raise e) /\
  ((forall e, reached -> fs_exists (outside σ) path <> Raise e) ->
     fst result = Ret None \/
     exists a, fst result = Ret (Some (address a)) /\ _account (self σ') = Some a) /\
  _w3 (self σ') = _w3 (self σ) /\
  _registry_address (self σ') = _registry_address (self σ) /\
  environ (outside σ') = environ (outside σ) /\
  denied (outside σ') = denied (outside σ).
Proof.
  cbv zeta. destruct (load_runs σ) as (Henv & Hden & Hw3 & Hreg & _ & Hres & _).
  split; [|split; [|split]].
  - intros e He.
    destruct Hres as [(e' & Hraise & Hex & Hpw & Hpk & Hacc & Hlog)|([Hnone|(a & Ha & _)] & _)];
      [|rewrite Hnone in He; discriminate|rewrite Ha in He; discriminate].
    rewrite Hraise in He. injection He as <-.
    repeat split; assumption.
  - intros e [Hpw Hpk] Hex. unfold keystore_file_of, fs_exists in Hex.
    unfold load_or_create_wallet. run. rewrite Hpw. run. rewrite Hpk. run.
    destruct (files (outside σ) !! _) as [[content| |strerror]|];
      try discriminate Hex.
    injection Hex as <-. reflexivity.
  - intros Hanswers.
    destruct Hres as [(e & _ & Hex & Hpw & Hpk & _)|(Hret & _)]; [|exact Hret].
    destruct (Hanswers e (conj Hpw Hpk) Hex).
  - repeat split; assumption.
Qed.

Lemma load_raises_at_refused_path :
  fst (@load_or_create_wallet sample_libraries (fresh_state refused_world))
  = Raise (os_error "[Errno 13] Permission denied" "/root/wallet/keystore.json") /\
  (fst (@load_or_create_wallet sample_libraries (fresh_state first_run_world))
   = Ret None \/
   exists a,
     fst (@load_or_create_wallet sample_libraries (fresh_state first_run_world))
     = Ret (Some (address a)) /\
     _account (self (snd (@load_or_create_wallet sample_libraries
                            (fresh_state first_run_world)))) = Some a).
Proof.
  split.
  - apply (proj1 (proj2 (@load_raises_only_at_existence_test sample_libraries
                           (fresh_state refused_world)))).
    + split; reflexivity.
    + reflexivity.
  - apply (proj1 (proj2 (proj2 (@load_raises_only_at_existence_test sample_libraries
                                  (fresh_state first_run_world))))).
    intros e _. discriminate.
Defined.

(** X3. [load_or_create_wallet] writes at most one file, the keystore at
    the configured path, and only where no file was: an existing keystore
    is never overwritten and no other path is touched.  At most one
    generated account is consumed, only when no keystore exists, and it is
    then the identity of the instance. *)
Theorem load_keystore_never_overwritten `{!Libraries} (σ : state) :
  let σ' := snd (load_or_create_wallet σ) in
  let path := keystore_file_of (outside σ) in
  (files (outside σ') = files (outside σ) \/
   (files (outside σ) !! path = None /\
    exists content,
      files (outside σ') = <[path := RegularFile content]> (files (outside σ)))) /\
  (forall q, q <> path -> files (outside σ') !! q = files (outside σ) !! q) /\
  (entropy (outside σ') = entropy (outside σ) \/
   exists a, entropy (outside σ) = a :: entropy (outside σ') /\
             _account (self σ') = Some a /\
             files (outside σ) !! path = None).
Proof.
  cbv zeta. destruct (load_runs σ) as (_ & _ & _ & _ & Hent & _ & added & _ & Hcase).
  assert (Hfiles :
    files (outside (snd (load_or_create_wallet σ))) = files (outside σ) \/
    (files (outside σ) !! keystore_file_of (outside σ) = None /\
     exists content,
       files (outside (snd (load_or_create_wallet σ)))
       = <[keystore_file_of (outside σ) := RegularFile content]> (files (outside σ)))).
  { destruct Hcase as [(_ & Hf)|[(_ & Hf)|[(_ & Hf)|(content & _ & Hnone & [Hf|Hf])]]];
      try (left; exact Hf).
    right. split; [exact Hnone|]. exists content. exact Hf. }
  split; [exact Hfiles|]. split; [|exact Hent].
  intros q Hq. destruct Hfiles as [->|(_ & content & ->)]; [reflexivity|].
  apply lookup_insert_ne. congruence.
Qed.

(** X4. [load_or_create_wallet] makes no chain call.  The calls it adds
    are file-system calls on the configured keystore path, at most two,
    the first of them the existence test. *)
Theorem load_file_calls_only `{!Libraries} (σ : state) :
  let σ' := snd (load_or_create_wallet σ) in
  let path := keystore_file_of (outside σ) in
  exists added,
    calls (outside σ') = calls (outside σ) ++ added /\
    Forall (fun c => call_path c = Some path) added /\
    Forall (fun c => is_network c = false) added /\
    (length added <= 2)%nat /\
    (added = [] \/ exists rest, added = CallPathExists path :: rest).
Proof.
  cbv zeta. destruct (load_runs σ) as (_ & _ & _ & _ & _ & _ & added & Hcalls & Hcase).
  exists added. split; [exact Hcalls|].
  destruct Hcase as [(-> & _)|[(-> & _)|[(-> & _)|(content & -> & _)]]];
    (split; [repeat constructor|]); (split; [repeat constructor|]);
    (split; [cbn [length]; lia|]);
    first [left; reflexivity|right; eexists; reflexivity].
Qed.

(** X5. Where [load_or_create_wallet] returns, the last line it logs is
    its verdict: an information line when it returns an address; when it
    returns [None], the warning of the missing password if none is
    configured and an error line otherwise; no error line comes before it.
    Where it raises, which is where the existence test of the keystore
    path raises, it logs nothing. *)
Theorem load_log_verdict `{!Libraries} (σ : state) :
  let result := load_or_create_wallet σ in
  (exists e,
     fst result = Raise e /\
     fs_exists (outside σ) (keystore_file_of (outside σ)) = Raise e /\
     log (outside (snd result)) = log (outside σ)) \/
  (exists quiet line,
     log (outside (snd result)) = log (outside σ) ++ quiet ++ [line] /\
     Forall (fun l : level * string => fst l <> ERROR) quiet /\
     ((exists h, fst result = Ret (Some h) /\ fst line = INFO) \/
      (fst result = Ret None /\ fst line = ERROR) \/
      (fst result = Ret None /\
       line = (WARNING, "AGENT_WALLET_PASSWORD not set. Cannot manage wallet.") /\
       truthy_str (environ (outside σ) !! "AGENT_WALLET_PASSWORD") = false))).
Proof.
  cbv zeta. destruct (load_runs σ)
    as (_ & _ & _ & _ & _ & [(e & Hraise & Hex & _ & _ & _ & Hlog)
                            |(_ & quiet & line & Hlog & Hquiet & Hline)] & _).
  { left. exists e. repeat split; assumption. }
  right. exists quiet, line. split; [exact Hlog|]. split; [exact Hquiet|].
  destruct (fst (load_or_create_wallet σ)) as [[h|]|e]; [| |destruct Hline].
  - left. exists h. split; [reflexivity|exact Hline].
  - right. destruct Hline as [Herr|[Hwarn Hpw]]; [left|right]; repeat split;
      assumption.
Qed.

(** X6. When the existence test finds nothing at the keystore path and
    the new key cannot be saved (the encryption raises, or the keystore
    path is not writable), [load_or_create_wallet] returns [None] and logs
    the failure, yet the instance keeps the generated account as its
    identity; no file is written and the generated account is consumed. *)
Theorem load_failed_creation_keeps_identity `{!Libraries}
    (σ : state) (password : string) (a : LocalAccount) (rest : list LocalAccount) :
  environ (outside σ) !! "AGENT_WALLET_PASSWORD" = Some password -> password <> "" ->
  truthy_str (environ (outside σ) !! "AGENT_PRIVATE_KEY") = false ->
  files (outside σ) !! keystore_file_of (outside σ) = None ->
  entropy (outside σ) = a :: rest ->
  ((exists e, Account_encrypt (key a) password = Raise e) \/
   keystore_file_of (outside σ) ∈ denied (outside σ)) ->
  let result := load_or_create_wallet σ in
  fst result = Ret None /\
  _account (self (snd result)) = Some a /\
  files (outside (snd result)) = files (outside σ) /\
  entropy (outside (snd result)) = rest /\
  exists e,
    last (log (outside (snd result)))
    = Some (ERROR, "Failed to create new wallet: " +:+ exn_msg e).
Proof.
  intros Hpw Hne Hpk Hf Hent Hfail. cbv zeta. unfold keystore_file_of in *.
  unfold load_or_create_wallet. run.
  rewrite Hpw, (truthy_str_Some _ Hne). run. rewrite Hpk. run.
  cbn [default from_option id].
  rewrite Hf. run. rewrite Hent. run.
  destruct (Account_encrypt (key a) password) as [ks|e] eqn:Henc; run.
  - destruct Hfail as [(e & [=])|Hd].
    rewrite bool_decide_eq_true_2 by exact Hd. run.
    do 4 (split; [reflexivity|]). eexists. apply last_snoc.
  - do 4 (split; [reflexivity|]). exists e. apply last_snoc.
Qed.

Lemma load_failed_creation_unwritable :
  let result := @load_or_create_wallet sample_libraries (fresh_state unwritable_world) in
  fst result = Ret None /\
  _account (self (snd result)) = Some sample_account /\
  files (outside (snd result)) = ∅ /\
  entropy (outside (snd result)) = [other_account] /\
  exists e,
    last (log (outside (snd result)))
    = Some (ERROR, "Failed to create new wallet: " +:+ exn_msg e).
Proof.
  apply (@load_failed_creation_keeps_identity sample_libraries
           (fresh_state unwritable_world) "pw" sample_account [other_account]).
  - reflexivity.
  - discriminate.
  - reflexivity.
  - reflexivity.
  - reflexivity.
  - right. reflexivity.
Defined.

(** X7. A wallet loaded once is found again by any instance: after a
    successful [load_or_create_wallet], a call made by an instance
    whatever in a world with the same environment and the same files
    returns the same address and holds the same identity, writes no file
    and consumes no generated account (a keystore decrypting to the key it
    was made from, a generated account being the account of its key). *)
Theorem load_again_from_any_instance `{!Libraries} (σ τ : state) (h : string) :
  (forall password k keystore,
     environ (outside σ) !! "AGENT_WALLET_PASSWORD" = Some password ->
     Account_encrypt k password = Ret keystore ->
     Account_decrypt (json_dumps keystore) password = Ret k) ->
  (forall a, a ∈ entropy (outside σ) ->
     Account_from_key (KeyBytes (key a)) = Ret a) ->
  fst (load_or_create_wallet σ) = Ret (Some h) ->
  environ (outside τ) = environ (outside (snd (load_or_create_wallet σ))) ->
  files (outside τ) = files (outside (snd (load_or_create_wallet σ))) ->
  denied (outside τ) = denied (outside (snd (load_or_create_wallet σ))) ->
  let result := load_or_create_wallet τ in
  fst result = Ret (Some h) /\
  _account (self (snd result))
  = _account (self (snd (load_or_create_wallet σ))) /\
  files (outside (snd result)) = files (outside τ) /\
  entropy (outside (snd result)) = entropy (outside τ).
Proof.
  intros Hround Hcreated Hok Henv2 Hfiles2 Hden2. cbv zeta.
  destruct (load_success σ h Hok)
    as (password & a & Hpw & Hne & Ha & Hh & Henv & Hden & Hcase).
  rewrite Ha, <- Hh.
  assert (Hpath : keystore_file_of (outside τ) = keystore_file_of (outside σ))
    by (unfold keystore_file_of; rewrite Henv2, Henv; reflexivity).
  assert (Hand : forall A B C D : Prop, A /\ B -> C /\ D -> A /\ B /\ C /\ D)
    by tauto.
  destruct Hcase as [(pk & Hpk & Hpkne & Hkey & _)
                    | [(Hpk & content & k & Hf & Hd & Hk & Hkey & Hfiles)
                      | (Hpk & Hf & Hd & rest & ks & Hent & Hks & Hfiles)]].
  - apply Hand;
      [apply (load_from_private_key τ password pk a)
      |apply (load_private_key_world τ password pk a)];
      rewrite ?Henv2, ?Henv; assumption.
  - apply Hand;
      [apply (load_from_keystore τ password content k a)
      |apply (load_keystore_world τ password content k a)];
      rewrite ?Hpath, ?Henv2, ?Henv, ?Hfiles2, ?Hfiles, ?Hden2, ?Hden;
      assumption.
  - assert (Hk : Account_decrypt (json_dumps ks) password = Ret (key a))
      by apply (Hround _ _ _ Hpw Hks).
    assert (Hkey : Account_from_key (KeyBytes (key a)) = Ret a)
      by (apply Hcreated; rewrite Hent; apply list_elem_of_here).
    apply Hand;
      [apply (load_from_keystore τ password (json_dumps ks) (key a) a)
      |apply (load_keystore_world τ password (json_dumps ks) (key a) a)];
      rewrite ?Hpath, ?Henv2, ?Henv, ?Hfiles2, ?Hfiles, ?Hden2, ?Hden;
      try assumption; apply lookup_insert_eq.
Qed.

Lemma load_again_second_run :
  let result := @load_or_create_wallet sample_libraries second_run_state in
  fst result = Ret (Some "0xAddressOf:k1") /\
  _account (self (snd result)) = Some sample_account /\
  files (outside (snd result)) = files (outside second_run_state) /\
  entropy (outside (snd result)) = [other_account].
Proof.
  apply (@load_again_from_any_instance sample_libraries
           (fresh_state first_run_world) second_run_state "0xAddressOf:k1"
           sample_keystore_roundtrip sample_created_keys
           eq_refl eq_refl eq_refl eq_refl).
Defined.

(** ** Every path of [register] *)

Lemma observed_intro {A} (r : outcome A) (σ : state) (c added : list call)
    (l lines : list (level * string)) :
  c = calls (outside σ) ++ added ->
  l = log (outside σ) ++ lines ->
  (r, {| self := self σ;
         outside := {| environ := environ (outside σ); files := files (outside σ);
                       denied := denied (outside σ);
                       entropy := entropy (outside σ); log := l; calls := c |} |})
  = (r, observed σ added lines).
Proof. intros -> ->. reflexivity. Qed.

(** The lines just logged: those before the last, and the last. *)
Ltac logged :=
  first [exists []; eexists; split; [reflexivity|]
        |eexists [_]; eexists; split; [reflexivity|]
        |eexists [_; _]; eexists; split; [reflexivity|]];
  (split; [once repeat constructor; discriminate|]);
  reflexivity.

(** The calls of a run name the identity of the instance. *)
Ltac of_identity :=
  repeat (apply List.Forall_cons;
          [cbn [call_of_identity];
           first [exact I
                 |eexists; split; reflexivity
                 |do 2 eexists; split; reflexivity]|]);
  apply List.Forall_nil.

(** The end of a run of [register]: the result and the state, the order of
    the calls, their identity, the log. *)
Ltac leaf :=
  run; cbn [exn_cls exn_msg]; rewrite <- ?app_assoc; cbn [app];
  do 3 eexists;
  (split; [eapply observed_intro; added_calls|]);
  (split; [reflexivity|]);
  (split; [reflexivity|]);
  (split; [of_identity|]);
  first [split; [eexists; reflexivity|logged]
        |split; reflexivity].
Ltac leaf_raised :=
  match goal with
  | Hh : forall (e : exn) (s : state), _ = (Ret None, _) |- _ => rewrite Hh
  end;
  leaf.

Section RegisterRuns.
Context `{!Libraries}.

(** One pass over every path of [register] without [mock]: the run only
    makes calls and logs; the calls come in one order, none left out; those
    that name an identity name the one the instance holds.  The run raises
    what the connection test raises, having logged nothing; where the test
    returns the run returns, and the log ends with the verdict. *)
Lemma register_runs (agent_url : string) (σ : state) :
  exists r added lines,
    register agent_url false σ = (r, observed σ added lines) /\
    map call_rank added = seq 0 (length added) /\
    (length added <=? 9)%nat = true /\
    Forall (call_of_identity (_account (self σ))) added /\
    match r with
    | Raise e => connected (self σ) = Raise e /\ lines = []
    | Ret value =>
        (exists up, connected (self σ) = Ret up) /\
        exists quiet line,
          lines = quiet ++ [line] /\
          Forall (fun l : level * string => fst l <> ERROR) quiet /\
          match value with
          | Some h =>
              line = (INFO, "Successfully registered agent URL on-chain. Tx: " +:+ h)
          | None => fst line = ERROR
          end
    end.
Proof.
  unfold connected, register.
  set (handler := fun e : exn =>
         match exn_cls e with
         | ContractLogicError =>
             logger ERROR
               ("Contract logic error during registration: " +:+ exn_msg e);;
             mret None
         | _ =>
             logger ERROR
               ("Unexpected error during registration: " +:+ exn_msg e);;
             mret (None : option string)
         end).
  assert (Hh : forall e s,
            handler e s
            = (Ret None,
               with_world (fun w =>
                 {| environ := environ w; files := files w; denied := denied w;
                    entropy := entropy w;
                    log := log w ++ [registration_error_line e];
                    calls := calls w |}) s))
    by (intros [[] msg] s; reflexivity).
  clearbody handler.
  run.
  destruct (_w3 (self σ)) as [w3|] eqn:Hw3; run; [|leaf].
  destruct (is_connected w3) as [[|]|e] eqn:Hc; run; [|leaf|leaf].
  destruct (_account (self σ)) as [account|] eqn:Ha; run; [|leaf].
  destruct (truthy_str (_registry_address (self σ))) eqn:Hr; run; [|leaf].
  walk_build w3 leaf_raised; walk_gas w3;
    walk_submit w3 leaf_raised leaf_raised leaf; leaf.
Qed.
End RegisterRuns.

(** Calls whose ranks count up from [s] on: which of them are of a kind. *)
Lemma ranked_above (l : list call) (s n : nat) (c : call) :
  map call_rank l = seq s n -> c ∈ l -> (s <= call_rank c < s + n)%nat.
Proof.
  revert s n. induction l as [|c0 l IH]; intros s n Hl Hc.
  - apply elem_of_nil in Hc as [].
  - destruct n as [|n]; [discriminate|]. cbn [map seq] in Hl.
    injection Hl as Hc0 Hl. apply elem_of_cons in Hc as [->|Hc]; [lia|].
    specialize (IH _ _ Hl Hc). lia.
Qed.

Lemma ranked_one_submission (l : list call) (s n : nat) :
  map call_rank l = seq s n -> (length (List.filter is_submission l) <= 1)%nat.
Proof.
  revert s n. induction l as [|c l IH]; intros s n Hl; [cbn; lia|].
  destruct n as [|n]; [discriminate|]. cbn [map seq] in Hl.
  injection Hl as Hc Hl. cbn [List.filter].
  destruct (is_submission c) eqn:Hsub; [|exact (IH _ _ Hl)].
  assert (Hnone : List.filter is_submission l = []).
  { clear IH. assert (Hs : (call_rank c < S s)%nat) by lia.
    assert (Hall : forall c', c' ∈ l -> is_submission c' = false).
    { intros c' Hc'. pose proof (ranked_above _ _ _ _ Hl Hc') as Hr.
      destruct c; try discriminate. cbn [call_rank] in *.
      destruct c'; try reflexivity. cbn [call_rank] in *. lia. }
    clear Hl. induction l as [|c' l IHl]; [reflexivity|]. cbn [List.filter].
    rewrite (Hall c') by apply list_elem_of_here.
    apply IHl. intros c'' Hc''. apply Hall, list_elem_of_further, Hc''. }
  rewrite Hnone. cbn. lia.
Qed.

(** X8. [register], mock or not, only makes chain calls and logs: the
    instance, the environment, the files, the access rights and the
    entropy source are as before, and the log and the list of calls are
    extended, never rewritten. *)
Theorem register_reads_only `{!Libraries}
    (agent_url : string) (mock : bool) (σ : state) :
  let σ' := snd (register agent_url mock σ) in
  self σ' = self σ /\
  environ (outside σ') = environ (outside σ) /\
  files (outside σ') = files (outside σ) /\
  denied (outside σ') = denied (outside σ) /\
  entropy (outside σ') = entropy (outside σ) /\
  (exists lines, log (outside σ') = log (outside σ) ++ lines) /\
  (exists added, calls (outside σ') = calls (outside σ) ++ added).
Proof.
  cbv zeta. destruct mock.
  - rewrite register_mock_run. do 5 (split; [reflexivity|]).
    split; eexists; [reflexivity|symmetry; apply app_nil_r].
  - destruct (register_runs agent_url σ) as (r & added & lines & -> & _).
    do 5 (split; [reflexivity|]). split; eexists; reflexivity.
Qed.

(** X9. The calls [register] makes come in one fixed order with none left
    out: the connection probe, the contract, the function, the nonce, the
    build, the gas estimation, the signature, the submission, the wait for
    the receipt.  A run stops somewhere along this sequence; so no call is
    made twice, at most one transaction is submitted, and the file system
    is never consulted. *)
Theorem register_call_order `{!Libraries}
    (agent_url : string) (mock : bool) (σ : state) :
  exists added,
    calls (outside (snd (register agent_url mock σ))) = calls (outside σ) ++ added /\
    map call_rank added = seq 0 (length added) /\
    (length added <= 9)%nat /\
    (length (List.filter is_submission added) <= 1)%nat /\
    Forall (fun c => is_file_call c = false) added.
Proof.
  destruct mock.
  - rewrite register_mock_run. exists []. split; [symmetry; apply app_nil_r|].
    split; [reflexivity|]. split; [cbn; lia|]. split; [cbn; lia|constructor].
  - destruct (register_runs agent_url σ)
      as (r & added & lines & -> & Hseq & Hlen & _).
    apply Nat.leb_le in Hlen.
    exists added. split; [reflexivity|]. split; [exact Hseq|].
    split; [exact Hlen|]. split; [exact (ranked_one_submission _ _ _ Hseq)|].
    apply List.Forall_forall. intros c Hc. apply list_elem_of_In in Hc.
    pose proof (ranked_above _ _ _ _ Hseq Hc) as Hr.
    destruct c; try reflexivity; cbn [call_rank] in Hr; lia.
Qed.

(** X10. Without [mock], where the connection test returns, the last line
    [register] logs is its verdict: an error line when it returns [None],
    the success line naming the returned hash otherwise; no error line
    comes before it.  So a failed registration logs exactly one error and
    a successful one none.  Where the connection test raises, the call
    raises the same and logs nothing. *)
Theorem register_log_verdict `{!Libraries} (agent_url : string) (σ : state) :
  let result := register agent_url false σ in
  match connected (self σ) with
  | Raise e =>
      fst result = Raise e /\ log (outside (snd result)) = log (outside σ)
  | Ret _ =>
      exists quiet line,
        log (outside (snd result)) = log (outside σ) ++ quiet ++ [line] /\
        Forall (fun l : level * string => fst l <> ERROR) quiet /\
        ((fst result = Ret None /\ fst line = ERROR) \/
         (exists h,
            fst result = Ret (Some h) /\
            line = (INFO, "Successfully registered agent URL on-chain. Tx: " +:+ h)))
  end.
Proof.
  cbv zeta. destruct (register_runs agent_url σ)
    as (r & added & lines & -> & _ & _ & _ & Hr).
  destruct r as [value|e].
  - destruct Hr as ((up & ->) & quiet & line & -> & Hquiet & Hline).
    exists quiet, line. split; [reflexivity|]. split; [exact Hquiet|].
    destruct value as [h|]; [right; exists h|left]; split;
      (reflexivity || exact Hline).
  - destruct Hr as (-> & ->). split; [reflexivity|apply app_nil_r].
Qed.

(** X11. The calls of [register] that name an identity name the one the
    instance holds: the nonce is asked for its address, the transaction
    is built from exactly two parameters, that address as sender and that
    nonce, and the signature is made with its key. *)
Theorem register_calls_of_identity `{!Libraries} (agent_url : string) (σ : state) :
  exists added,
    calls (outside (snd (register agent_url false σ))) = calls (outside σ) ++ added /\
    Forall (call_of_identity (_account (self σ))) added.
Proof.
  destruct (register_runs agent_url σ)
    as (r & added & lines & -> & _ & _ & Hid & _).
  exists added. split; [reflexivity|exact Hid].
Qed.

(** The run of [register] up to the signature, on a built transaction. *)
Ltac to_signature B G :=
  let Hw3 := fresh in let Hc := fresh in let Ha := fresh in
  let Hr := fresh in let Hne := fresh in let Hck := fresh in
  let Hct := fresh in let Hfn := fresh in let Hn := fresh in
  let Hb := fresh in let Hg := fresh in let Hgas := fresh in
  destruct B as [Hw3 Hc Ha (? & Hr & Hne & Hck) Hct Hfn Hn Hb];
  unfold tx_params in Hb;
  unfold register; run; rewrite Hw3; run; rewrite Hc; run; rewrite Ha; run;
  rewrite Hr, (truthy_str_Some _ Hne); run; cbn [default from_option id];
  rewrite Hck, Hct, Hfn, Hn, Hb;
  destruct G as [? ? Hg Hgas | ? Hg | ? ? Hg Hgas]; rewrite Hg; try rewrite Hgas.

(** X12. When the node rejects the submission, [register] returns [None];
    the last line logged is the error line of the exception (a contract
    logic error has its own wording), and the submission is the last call
    made: the receipt is never awaited. *)
Theorem register_submission_rejected `{!Libraries}
    (σ : state) (agent_url : string) (w3 : Web3) (account : LocalAccount)
    (addr : string) (nonce : Z) (tx tx' : gmap string pyval)
    (signed : SignedTransaction) (e : exn) :
  built σ agent_url w3 account addr nonce tx ->
  gas_step w3 tx tx' ->
  sign_transaction w3 tx' (key account) = Ret signed ->
  send_raw_transaction w3 (raw_transaction signed) = Raise e ->
  let result := register agent_url false σ in
  fst result = Ret None /\
  last (log (outside (snd result))) = Some (registration_error_line e) /\
  last (calls (outside (snd result)))
  = Some (CallSendRawTransaction (raw_transaction signed)).
Proof.
  intros B G Hs Hsend. cbv zeta. to_signature B G; rewrite Hs, Hsend;
    destruct e as [[] msg]; run;
    (split; [reflexivity|split; apply last_snoc]).
Qed.

Lemma reverting_built (agent_url : string) :
  @built sample_libraries (ready_state reverting_w3) agent_url reverting_w3
    sample_account sample_registry 0 (sample_tx agent_url).
Proof.
  constructor; try reflexivity.
  exists sample_registry. repeat split. discriminate.
Defined.

Lemma register_submission_reverted :
  let result :=
    @register sample_libraries "http://test.agent" false (ready_state reverting_w3) in
  fst result = Ret None /\
  last (log (outside (snd result)))
  = Some (ERROR, "Contract logic error during registration: execution reverted") /\
  last (calls (outside (snd result)))
  = Some (CallSendRawTransaction (key sample_account)).
Proof.
  apply (@register_submission_rejected sample_libraries
           (ready_state reverting_w3) "http://test.agent" reverting_w3
           sample_account sample_registry 0 (sample_tx "http://test.agent")
           (<["gas" := PInt 25200]> (sample_tx "http://test.agent"))
           {| raw_transaction := key sample_account |}
           (Exn ContractLogicError "execution reverted")
           (reverting_built _)).
  - apply (gas_buffered _ _ 21000 25200); reflexivity.
  - reflexivity.
  - reflexivity.
Defined.

(** X13. A receipt that carries no [status] is a failure: [register]
    returns [None] and the last line logged is the unexpected-error line
    of the missing key. *)
Theorem register_receipt_without_status `{!Libraries}
    (σ : state) (agent_url : string) (tx_hash : list byte)
    (receipt : gmap string pyval) :
  submitted σ agent_url tx_hash receipt ->
  receipt !! "status" = None ->
  let result := register agent_url false σ in
  fst result = Ret None /\
  last (log (outside (snd result)))
  = Some (ERROR, "Unexpected error during registration: 'status'").
Proof.
  intros (w3 & account & addr & nonce & tx & tx' & signed & B & G & Hs & Hsend & Hw)
    Hst. cbv zeta.
  to_signature B G; rewrite Hs, Hsend, Hw; unfold dict_getitem; rewrite Hst; run;
    (split; [reflexivity|apply last_snoc]).
Qed.

Lemma statusless_submitted (agent_url : string) :
  @submitted sample_libraries (ready_state statusless_w3) agent_url
    sample_tx_hash (<["blockNumber" := PInt 1]> ∅).
Proof.
  exists statusless_w3, sample_account, sample_registry, 0,
    (sample_tx agent_url), (<["gas" := PInt 25200]> (sample_tx agent_url)),
    {| raw_transaction := key sample_account |}.
  split.
  { constructor; try reflexivity.
    exists sample_registry. repeat split. discriminate. }
  split; [apply (gas_buffered _ _ 21000 25200); reflexivity|].
  repeat split.
Defined.

Lemma register_receipt_without_status_sample :
  let result :=
    @register sample_libraries "http://test.agent" false (ready_state statusless_w3) in
  fst result = Ret None /\
  last (log (outside (snd result)))
  = Some (ERROR, "Unexpected error during registration: 'status'").
Proof.
  apply (@register_receipt_without_status sample_libraries
           (ready_state statusless_w3) "http://test.agent" sample_tx_hash
           (<["blockNumber" := PInt 1]> ∅) (statusless_submitted _) eq_refl).
Defined.

(** X14. For an estimate below 2^51 the buffered gas limit is never below
    the estimate and never more than a fifth above it; the margin is
    nothing for an estimate below 5 and at least one unit from 5 on. *)
Theorem gas_buffer_bounds (g : Z) :
  0 <= g < 2 ^ 51 ->
  exists gas,
    gas_with_buffer g = Ret gas /\
    g <= gas /\ 5 * gas <= 6 * g /\
    (g < 5 -> gas = g) /\ (5 <= g -> g < gas).
Proof.
  intros Hg. exists (6 * g / 5). split; [apply gas_with_buffer_exact, Hg|].
  pose proof (Z.div_mod (6 * g) 5 ltac:(lia)) as Hdiv.
  pose proof (Z.mod_pos_bound (6 * g) 5 ltac:(lia)) as Hmod.
  repeat split; intros; lia.
Qed.

Lemma gas_buffer_bounds_sample :
  exists gas,
    gas_with_buffer 21000 = Ret gas /\
    21000 <= gas /\ 5 * gas <= 6 * 21000 /\
    (21000 < 5 -> gas = 21000) /\ (5 <= 21000 -> 21000 < gas).
Proof.
  apply (gas_buffer_bounds 21000). change (2 ^ 51) with 2251799813685248. lia.
Defined.

(** ** Every request to the mock endpoint *)

(** The next test of the method name, both ways. *)
Ltac next_method :=
  match goal with
  | |- context [if py_eq_str ?m ?s then _ else _] =>
      let Hm := fresh "Hm" in destruct (py_eq_str m s) eqn:Hm
  end; run_rpc.

(** A request served: the envelope, and no error logged. *)
Ltac served d :=
  do 2 eexists;
  (split; [rewrite <- ?app_assoc; reflexivity|]);
  left; exists d; eexists;
  (split; [reflexivity|]); (split; [apply serves_envelope|]);
  repeat (apply List.Forall_cons; [intros ?; discriminate|]);
  apply List.Forall_nil.

(** A request failed: the error response, the error logged last. *)
Ltac failed :=
  do 2 eexists;
  (split; [rewrite <- ?app_assoc; reflexivity|]);
  right; eexists; split; reflexivity.

(** X15. The handler function never raises, its whole body standing in a
    [try] that catches every exception: it returns either a success
    envelope, a plain object that carries the protocol version, the
    request's [id] and a result and no error member, which it does only
    for a decoded JSON object and without logging an error; or a response
    it built itself, of status 500 with the error envelope of the
    exception, which is then the last entry logged.  The log is only
    appended to.  (A plain object is serialised by the framework after
    the function has returned; that step is not the function's.) *)
Theorem handle_rpc_always_answers (body : outcome pyval) (l : list rpc_log) :
  exists answer entries,
    handle_rpc body l = (Ret answer, l ++ entries) /\
    ((exists d result,
        body = Ret (PDict d) /\
        serves (Ret answer) d result /\
        Forall (fun r => forall e, r <> LogError e) entries) \/
     (exists e,
        answer = Built {| status_code := 500; content := rpc_error_envelope e |} /\
        last entries = Some (LogError e))).
Proof.
  destruct body as [v|e]; [|run_rpc; failed].
  destruct v as [ | | | | | | |d]; try (run_rpc; failed).
  run_rpc.
  do 8 (next_method; [served d|]).
  next_method; [|served d].
  destruct (truthy (default (PList []) (d !! "params"))); run_rpc; [|served d].
  destruct (py_getitem0 (default (PList []) (d !! "params"))) as [first|e];
    run_rpc; [|failed].
  destruct (py_eq_str first MOCK_TX_HASH); served d.
Qed.

(** X16. A body that is not a JSON object is answered with a response of
    status 500: an undecodable body with the decoder's exception, a
    decoded value of another type (a batch, say, which is a list) with the
    attribute error of the missing [get].  The error envelope has a null
    [id], and only the error is logged. *)
Theorem handle_rpc_malformed_body (body : outcome pyval) (l : list rpc_log) :
  (forall d, body <> Ret (PDict d)) ->
  let e := match body with
           | Raise e => e
           | Ret v => Exn AttributeError
                        ("'" +:+ type_name v +:+ "' object has no attribute 'get'")
           end in
  handle_rpc body l
  = (Ret (Built {| status_code := 500; content := rpc_error_envelope e |}),
     l ++ [LogError e]) /\
  exists fields : gmap string pyval,
    rpc_error_envelope e = PDict fields /\
    fields !! "id" = Some PNone /\
    fields !! "result" = None.
Proof.
  intros Hbody. cbv zeta. split.
  - destruct body as [v|e]; [|reflexivity].
    destruct v as [ | | | | | | |d]; try reflexivity.
    destruct (Hbody d). reflexivity.
  - eexists. split; [reflexivity|]. split; reflexivity.
Qed.

Lemma handle_rpc_batch_refused :
  handle_rpc (Ret rpc_batch) []
  = (Ret (Built {| status_code := 500;
                   content := rpc_error_envelope
                                (Exn AttributeError
                                   "'list' object has no attribute 'get'") |}),
     [LogError (Exn AttributeError "'list' object has no attribute 'get'")]).
Proof.
  apply (proj1 (handle_rpc_malformed_body (Ret rpc_batch) [] ltac:(discriminate))).
Defined.

(** X17. A receipt query whose [params] is truthy but cannot be indexed
    at 0 (a number, or an object with named parameters) is answered with
    status 500 and the error envelope of the exception the access raises;
    the request and then the error are logged. *)
Theorem handle_rpc_receipt_params_error
    (d : gmap string pyval) (l : list rpc_log) (e : exn) :
  d !! "method" = Some (PStr "eth_getTransactionReceipt") ->
  truthy (default (PList []) (d !! "params")) = true ->
  py_getitem0 (default (PList []) (d !! "params")) = Raise e ->
  handle_rpc (Ret (PDict d)) l
  = (Ret (Built {| status_code := 500; content := rpc_error_envelope e |}),
     l ++ [LogRequest (PStr "eth_getTransactionReceipt")
             (default (PList []) (d !! "params"));
           LogError e]).
Proof.
  intros Hm Ht He. run_rpc. rewrite Hm. run_rpc.
  change (py_eq_str (PStr "eth_getTransactionReceipt") "eth_chainId") with false.
  change (py_eq_str (PStr "eth_getTransactionReceipt") "net_version") with false.
  change (py_eq_str (PStr "eth_getTransactionReceipt") "eth_getTransactionCount")
    with false.
  change (py_eq_str (PStr "eth_getTransactionReceipt") "eth_gasPrice") with false.
  change (py_eq_str (PStr "eth_getTransactionReceipt") "eth_estimateGas") with false.
  change (py_eq_str (PStr "eth_getTransactionReceipt") "eth_maxPriorityFeePerGas")
    with false.
  change (py_eq_str (PStr "eth_getTransactionReceipt") "eth_getBlockByNumber")
    with false.
  change (py_eq_str (PStr "eth_getTransactionReceipt") "eth_sendRawTransaction")
    with false.
  change (py_eq_str (PStr "eth_getTransactionReceipt") "eth_getTransactionReceipt")
    with true.
  cbv iota. rewrite Ht, He. run_rpc. rewrite <- app_assoc. reflexivity.
Qed.

Lemma handle_rpc_receipt_by_name :
  handle_rpc (Ret (PDict receipt_query_by_name)) []
  = (Ret (Built {| status_code := 500;
                   content := rpc_error_envelope (Exn KeyError "0") |}),
     [LogRequest (PStr "eth_getTransactionReceipt")
        (PDict {["hash" := PStr MOCK_TX_HASH]});
      LogError (Exn KeyError "0")]).
Proof.
  apply (handle_rpc_receipt_params_error receipt_query_by_name []
           (Exn KeyError "0") eq_refl eq_refl eq_refl).
Defined.

(** X18. A request whose method is none of the nine the handler knows (an
    unknown name, no method at all, a method that is not a string) is
    served: the handler returns the success envelope whose [result]
    member is "0x0", and logs the request and a warning naming the
    method. *)
Theorem handle_rpc_unhandled_method (d : gmap string pyval) (l : list rpc_log) :
  let method := default PNone (d !! "method") in
  Forall (fun s => method <> PStr s) handled_methods ->
  serves (fst (handle_rpc (Ret (PDict d)) l)) d (PStr "0x0") /\
  snd (handle_rpc (Ret (PDict d)) l)
  = l ++ [LogRequest method (default (PList []) (d !! "params"));
          LogUnhandled method].
Proof.
  cbv zeta. intros Hnone. unfold handled_methods in Hnone.
  assert (Hrun : handle_rpc (Ret (PDict d)) l
                 = (Ret (Plain (rpc_envelope (default PNone (d !! "id")) (PStr "0x0"))),
                    l ++ [LogRequest (default PNone (d !! "method"))
                            (default (PList []) (d !! "params"));
                          LogUnhandled (default PNone (d !! "method"))])).
  { run_rpc.
    repeat match goal with
           | H : Forall _ (_ :: _) |- _ =>
               let Hm := fresh "Hm" in
               apply List.Forall_cons_iff in H as [Hm H];
               apply py_eq_str_not in Hm; rewrite Hm
           end.
    run_rpc. rewrite <- app_assoc. reflexivity. }
  rewrite Hrun. split; [apply serves_envelope|reflexivity].
Qed.

Lemma handle_rpc_eth_call :
  serves (fst (handle_rpc (Ret (PDict (rpc_request "eth_call" None (PInt 4)))) []))
    (rpc_request "eth_call" None (PInt 4)) (PStr "0x0") /\
  snd (handle_rpc (Ret (PDict (rpc_request "eth_call" None (PInt 4)))) [])
  = [LogRequest (PStr "eth_call") (PList []); LogUnhandled (PStr "eth_call")].
Proof.
  apply (handle_rpc_unhandled_method (rpc_request "eth_call" None (PInt 4)) []).
  repeat (apply List.Forall_cons; [discriminate|]). apply List.Forall_nil.
Defined.

(** X19. Only a receipt query looks at [params]: for every other method
    the answer is the same whatever parameters the request carries. *)
Theorem handle_rpc_ignores_params
    (d : gmap string pyval) (p : pyval) (l l' : list rpc_log) :
  d !! "method" <> Some (PStr "eth_getTransactionReceipt") ->
  fst (handle_rpc (Ret (PDict (<["params" := p]> d))) l)
  = fst (handle_rpc (Ret (PDict d)) l').
Proof.
  intros Hm. run_rpc.
  assert (Hmethod : (<["params" := p]> d) !! "method" = d !! "method")
    by (apply lookup_insert_ne; discriminate).
  assert (Hid : (<["params" := p]> d) !! "id" = d !! "id")
    by (apply lookup_insert_ne; discriminate).
  rewrite Hmethod, Hid, lookup_insert_eq.
  cbn [default from_option id].
  do 8 (next_method; [reflexivity|]).
  next_method; [|reflexivity].
  destruct (d !! "method") as [[ | | | |s| | | ]|]; try discriminate.
  cbn [default from_option id py_eq_str] in *.
  apply String.eqb_eq in Hm8 as ->. destruct Hm. reflexivity.
Qed.

Lemma handle_rpc_ignores_params_sample :
  fst (handle_rpc
         (Ret (PDict (<["params" := nonce_query_params]>
                        (rpc_request "eth_getTransactionCount" None (PInt 5))))) [])
  = fst (handle_rpc
           (Ret (PDict (rpc_request "eth_getTransactionCount" None (PInt 5)))) []).
Proof.
  apply (handle_rpc_ignores_params
           (rpc_request "eth_getTransactionCount" None (PInt 5))
           nonce_query_params [] []).
  discriminate.
Defined.

(** X20. The mock chain has one identifier, 1337: the handler serves
    [eth_chainId] with the envelope whose [result] member is "0x539" and
    [net_version] with the one whose [result] member is "1337", and both
    texts read back as that number. *)
Theorem handle_rpc_chain_id (d : gmap string pyval) (l : list rpc_log) :
  let answer := fst (handle_rpc (Ret (PDict d)) l) in
  (d !! "method" = Some (PStr "eth_chainId") -> serves answer d (PStr "0x539")) /\
  (d !! "method" = Some (PStr "net_version") -> serves answer d (PStr "1337")) /\
  HexString.to_Z "0x539" = MOCK_CHAIN_ID /\
  option_map Z.of_int (NilZero.int_of_string "1337") = Some MOCK_CHAIN_ID.
Proof.
  cbv zeta. split; [|split; [|split; reflexivity]]; intros Hm.
  - replace (fst (handle_rpc (Ret (PDict d)) l))
      with (Ret (Plain (rpc_envelope (default PNone (d !! "id")) (PStr "0x539")))
            : outcome returned)
      by (run_rpc; rewrite Hm; reflexivity).
    apply serves_envelope.
  - replace (fst (handle_rpc (Ret (PDict d)) l))
      with (Ret (Plain (rpc_envelope (default PNone (d !! "id")) (PStr "1337")))
            : outcome returned)
      by (run_rpc; rewrite Hm; reflexivity).
    apply serves_envelope.
Qed.

Lemma handle_rpc_chain_id_sample :
  serves (fst (handle_rpc (Ret (PDict (rpc_request "eth_chainId" None (PInt 1)))) []))
    (rpc_request "eth_chainId" None (PInt 1)) (PStr "0x539") /\
  serves (fst (handle_rpc (Ret (PDict (rpc_request "net_version" None (PInt 2)))) []))
    (rpc_request "net_version" None (PInt 2)) (PStr "1337").
Proof.
  split.
  - apply (proj1 (handle_rpc_chain_id (rpc_request "eth_chainId" None (PInt 1)) [])).
    reflexivity.
  - apply (proj1 (proj2 (handle_rpc_chain_id
                           (rpc_request "net_version" None (PInt 2)) []))).
    reflexivity.
Defined.
